(** * Yumee signaling server: registry, call rooms and relay handlers

    A shallow embedding of [app.py]: the two module-level dictionaries
    [connected_users] and [active_rooms], the Socket.IO event handlers that
    read and update them, and the events the handlers emit.  Handlers are
    written in a small state/exception/output monad so that they read like
    the Python functions they embed. *)

From Stdlib Require Import String Ascii List Bool Arith ZArith Lia.
Import ListNotations.
Open Scope string_scope.
Open Scope list_scope.
Set Warnings "-register-all".

(** ** Python values *)

(** The argument of an event is a JSON object; its fields are arbitrary JSON
    values.  A [str] is the sequence of its characters, each a code point
    below 256.  A JSON number is kept as an integer: the handlers only ever
    observe its truth value and the fact that it is hashable and not a
    string. *)
Inductive pyval : Type :=
| PNone
| PBool (b : bool)
| PInt (n : Z)
| PStr (s : string)
| PList (items : list pyval)
| PDict (items : list (string * pyval)).

(** Python's truth value of an object, as tested by [if x] and [x and y]. *)
Definition py_truthy (v : pyval) : bool :=
  match v with
  | PNone => false
  | PBool b => b
  | PInt n => negb (Z.eqb n 0)
  | PStr s => negb (String.eqb s "")
  | PList l => match l with [] => false | _ => true end
  | PDict d => match d with [] => false | _ => true end
  end.

(** Exceptions the handlers can run into.  [TypeError v] is the
    "unhashable type" error of using a list or a dict as a dictionary key,
    [AttributeError v a] the missing attribute [a] on [v]. *)
Inductive exn : Type :=
| KeyError (k : string)
| IndexError
| AttributeError (v : pyval) (attr : string)
| TypeError (v : pyval).

(** ** Strings *)

(** [str.isspace] on one character (code points below 256): tab to carriage
    return, the four separators 28..31, space, NEL and the no-break space. *)
Definition is_space (c : ascii) : bool :=
  let n := nat_of_ascii c in
  (((9 <=? n) && (n <=? 13)) || ((28 <=? n) && (n <=? 32))
   || (n =? 133) || (n =? 160))%nat.

Fixpoint lstrip (s : string) : string :=
  match s with
  | EmptyString => EmptyString
  | String c r => if is_space c then lstrip r else s
  end.

Fixpoint rstrip (s : string) : string :=
  match s with
  | EmptyString => EmptyString
  | String c r =>
      match rstrip r with
      | EmptyString => if is_space c then EmptyString else String c EmptyString
      | r' => String c r'
      end
  end.

(** [s.strip()] *)
Definition strip (s : string) : string := rstrip (lstrip s).

(** [min(a, b)] and [max(a, b)] on strings: the builtin keeps its first
    argument unless the second is strictly smaller (resp. larger). *)
Definition py_min (a b : string) : string := if String.ltb b a then b else a.
Definition py_max (a b : string) : string := if String.ltb a b then b else a.

(** ** Dictionaries

    A Python [dict] with string keys, in insertion order: [d[k] = v] updates
    in place when [k] is present and appends otherwise, [del d[k]] removes
    the key.  Keys of a [dict] are unique; the tables of the server keep that
    property (see [wf] and [reachable_wf] below). *)
Definition dict (V : Type) : Type := list (string * V).

Section Dict.
Context {V : Type}.

Fixpoint dict_get (k : string) (d : dict V) : option V :=
  match d with
  | [] => None
  | (k', v) :: r => if String.eqb k k' then Some v else dict_get k r
  end.

Definition dict_mem (k : string) (d : dict V) : bool :=
  match dict_get k d with Some _ => true | None => false end.

Fixpoint dict_set (k : string) (v : V) (d : dict V) : dict V :=
  match d with
  | [] => [(k, v)]
  | (k', v') :: r =>
      if String.eqb k k' then (k, v) :: r else (k', v') :: dict_set k v r
  end.

Definition dict_del (k : string) (d : dict V) : dict V :=
  filter (fun kv => negb (String.eqb k (fst kv))) d.

Definition dict_keys (d : dict V) : list string := map fst d.
End Dict.

(** [data.get(key)] and [data.get(key, default)] *)
Definition py_get (data : dict pyval) (key : string) : pyval :=
  match dict_get key data with Some v => v | None => PNone end.

Definition py_get_default (data : dict pyval) (key : string) (default : pyval)
  : pyval :=
  match dict_get key data with Some v => v | None => default end.

(** [x in l] for a list of strings *)
Definition list_mem (x : string) (l : list string) : bool :=
  existsb (String.eqb x) l.

(** ** Server state and emitted events *)

(** One entry of [connected_users]. *)
Record user_info : Type := mkUser {
  u_name : string;
  u_sid : string;
  u_joined_at : string
}.

(** The two module-level dictionaries, and the Socket.IO room membership
    that [join_room] and [leave_room] maintain (pairs of room and sid). *)
Record state : Type := mkState {
  connected_users : dict user_info;
  active_rooms : dict (list string);
  sio_rooms : list (string * string)
}.

Definition initial_state : state := mkState [] [] [].

(** A field of an emitted payload: a Python value, or [str(e)] of a caught
    exception (its text is the interpreter's). *)
Inductive outval : Type :=
| OVal (v : pyval)
| OErr (e : exn).

Definition ostr (s : string) : outval := OVal (PStr s).
Definition obool (b : bool) : outval := OVal (PBool b).

(** Where [emit] sends: no [room] and no [broadcast] (the reply to
    [request.sid]), [room=...], or [broadcast=True] with [include_self]. *)
Inductive dest : Type :=
| ToSelf
| ToRoom (room : string)
| Broadcast (include_self : bool).

Record emission : Type := Emit {
  ev_name : string;
  ev_payload : list (string * outval);
  ev_dest : dest
}.

(** ** The handler monad: state that survives an exception, and the events
    emitted so far. *)
Definition M (A : Type) : Type := state -> (exn + A) * state * list emission.

Definition ret {A : Type} (a : A) : M A := fun s => (inr a, s, []).

Definition raise {A : Type} (e : exn) : M A := fun s => (inl e, s, []).

Definition bind {A B : Type} (m : M A) (f : A -> M B) : M B :=
  fun s =>
    match m s with
    | (inr a, s1, o1) =>
        match f a s1 with (r, s2, o2) => (r, s2, o1 ++ o2) end
    | (inl e, s1, o1) => (inl e, s1, o1)
    end.

(** [try: m  except Exception as e: h e] *)
Definition try_except {A : Type} (m : M A) (h : exn -> M A) : M A :=
  fun s =>
    match m s with
    | (inl e, s1, o1) =>
        match h e s1 with (r, s2, o2) => (r, s2, o1 ++ o2) end
    | ok => ok
    end.

Definition gets {A : Type} (f : state -> A) : M A := fun s => (inr (f s), s, []).

Definition modify (f : state -> state) : M unit := fun s => (inr tt, f s, []).

Definition emit (name : string) (payload : list (string * outval)) (d : dest)
  : M unit :=
  fun s => (inr tt, s, [Emit name payload d]).

Declare Scope py_scope.
Delimit Scope py_scope with py.
Notation "x <- m ;; k" := (bind m (fun x => k))
  (at level 61, m at next level, right associativity) : py_scope.
Notation "m ;; k" := (bind m (fun _ => k))
  (at level 61, right associativity) : py_scope.
Open Scope py_scope.

(** [for x in l: body x] *)
Fixpoint for_each {A : Type} (l : list A) (body : A -> M unit) : M unit :=
  match l with
  | [] => ret tt
  | x :: r => body x ;; for_each r body
  end.

(** Final state and output of a handler, whatever its result. *)
Definition state_of {A : Type} (r : (exn + A) * state * list emission) : state :=
  snd (fst r).
Definition output_of {A : Type} (r : (exn + A) * state * list emission)
  : list emission := snd r.
Definition result_of {A : Type} (r : (exn + A) * state * list emission)
  : exn + A := fst (fst r).

(** [v in d] for a dictionary with string keys: [Some k] when [v] is the
    string [k] and [k] is a key, [None] when it is not a key; a list or a
    dict is unhashable. *)
Definition py_in {V : Type} (v : pyval) (d : dict V) : M (option string) :=
  match v with
  | PStr k => ret (if dict_mem k d then Some k else None)
  | PList _ | PDict _ => raise (TypeError v)
  | _ => ret None
  end.

(** [d[k]] *)
Definition subscript {V : Type} (d : dict V) (k : string) : M V :=
  match dict_get k d with
  | Some v => ret v
  | None => raise (KeyError k)
  end.

(** [l[0]] *)
Definition first {A : Type} (l : list A) : M A :=
  match l with
  | x :: _ => ret x
  | [] => raise IndexError
  end.

(** [v.strip()] *)
Definition py_strip (v : pyval) : M string :=
  match v with
  | PStr s => ret (strip s)
  | _ => raise (AttributeError v "strip")
  end.

(** [connected_users.get(sid, {}).get('name', default)] *)
Definition name_or (sid default : string) (users : dict user_info) : string :=
  match dict_get sid users with
  | Some u => u_name u
  | None => default
  end.

Definition set_connected_users (f : dict user_info -> dict user_info)
  : M unit :=
  modify (fun s => mkState (f (connected_users s)) (active_rooms s) (sio_rooms s)).

Definition set_active_rooms (f : dict (list string) -> dict (list string))
  : M unit :=
  modify (fun s => mkState (connected_users s) (f (active_rooms s)) (sio_rooms s)).

Definition pair_eqb (a b : string * string) : bool :=
  String.eqb (fst a) (fst b) && String.eqb (snd a) (snd b).

(** [join_room(room, sid=sid)] and [leave_room(room, sid=sid)] *)
Definition join_room (room sid : string) : M unit :=
  modify (fun s =>
    mkState (connected_users s) (active_rooms s)
      (if existsb (pair_eqb (room, sid)) (sio_rooms s) then sio_rooms s
       else sio_rooms s ++ [(room, sid)])).

Definition leave_room (room sid : string) : M unit :=
  modify (fun s =>
    mkState (connected_users s) (active_rooms s)
      (filter (fun p => negb (pair_eqb (room, sid) p)) (sio_rooms s))).

(** ** Handlers *)

(** [broadcast_user_list(to_sid=None)] *)
Definition broadcast_user_list (to_sid : option string) : M unit :=
  users <- gets connected_users ;;
  let user_list :=
    map (fun kv : string * user_info =>
           PDict [("name", PStr (u_name (snd kv))); ("sid", PStr (fst kv))])
        users in
  let payload := [("users", OVal (PList user_list))] in
  match to_sid with
  | Some sid =>
      if negb (String.eqb sid "") then emit "user_list" payload (ToRoom sid)
      else emit "user_list" payload (Broadcast true)
  | None => emit "user_list" payload (Broadcast true)
  end.

(** [cleanup_room(room_id)] *)
Definition cleanup_room (room_id : string) : M unit :=
  rooms <- gets active_rooms ;;
  if dict_mem room_id rooms then
    users <- (rooms <- gets active_rooms ;; subscript rooms room_id) ;;
    for_each users (fun user_sid => leave_room room_id user_sid) ;;
    set_active_rooms (dict_del room_id)
  else ret tt.

(** [cleanup_user_rooms(sid)] *)
Definition cleanup_user_rooms (sid : string) : M unit :=
  rooms <- gets active_rooms ;;
  let rooms_to_cleanup :=
    map fst (filter (fun kv : string * list string => list_mem sid (snd kv))
                    rooms) in
  for_each rooms_to_cleanup (fun room_id =>
    room_users <- (rooms <- gets active_rooms ;; subscript rooms room_id) ;;
    let other_users :=
      filter (fun u => negb (String.eqb u sid)) room_users in
    for_each other_users (fun other_sid =>
      users <- gets connected_users ;;
      emit "call_ended"
        [("ender_name", ostr (name_or sid "Someone" users));
         ("reason", ostr "disconnected")]
        (ToRoom other_sid)) ;;
    cleanup_room room_id).

(** [handle_connect()] *)
Definition handle_connect (request_sid : string) : M unit :=
  emit "connected"
    [("sid", ostr request_sid); ("message", ostr "Connected to Yumee server")]
    ToSelf.

(** [handle_disconnect()]; it has no [try], an exception leaves it. *)
Definition handle_disconnect (request_sid : string) : M unit :=
  let sid := request_sid in
  users <- gets connected_users ;;
  if dict_mem sid users then
    u <- (users <- gets connected_users ;; subscript users sid) ;;
    let user_name := u_name u in
    set_connected_users (dict_del sid) ;;
    emit "user_left" [("name", ostr user_name); ("sid", ostr sid)]
      (Broadcast false) ;;
    broadcast_user_list None ;;
    cleanup_user_rooms sid
  else ret tt.

(** [handle_register(data)]; [now] is [datetime.utcnow().isoformat()]. *)
Definition handle_register (request_sid : string) (now : string)
    (data : dict pyval) : M unit :=
  try_except
    (stripped <- py_strip (py_get_default data "name" (PStr "Anonymous")) ;;
     let display_name :=
       if String.eqb stripped "" || (30 <? String.length stripped)%nat
       then "Anonymous" else stripped in
     let sid := request_sid in
     set_connected_users
       (dict_set sid (mkUser display_name sid now)) ;;
     emit "registered"
       [("success", obool true); ("name", ostr display_name); ("sid", ostr sid)]
       ToSelf ;;
     emit "user_joined" [("name", ostr display_name); ("sid", ostr sid)]
       (Broadcast false) ;;
     broadcast_user_list None)
    (fun e =>
       emit "registered" [("success", obool false); ("error", OErr e)] ToSelf).

(** [handle_get_users()] *)
Definition handle_get_users (request_sid : string) : M unit :=
  broadcast_user_list (Some request_sid).

(** The room identifier of [handle_call_user]:
    [f"call_{min(caller_sid, target_sid)}_{max(caller_sid, target_sid)}"] *)
Definition room_id_of (caller_sid target_sid : string) : string :=
  "call_" ++ py_min caller_sid target_sid ++ "_" ++ py_max caller_sid target_sid.

(** [handle_call_user(data)] *)
Definition handle_call_user (request_sid : string) (data : dict pyval)
  : M unit :=
  try_except
    (let target := py_get data "target_sid" in
     let caller_sid := request_sid in
     users <- gets connected_users ;;
     found <- py_in target users ;;
     match found with
     | None => emit "call_error" [("error", ostr "User is offline")] ToSelf
     | Some target_sid =>
         if String.eqb caller_sid target_sid then
           emit "call_error" [("error", ostr "Cannot call yourself")] ToSelf
         else
           let room_id := room_id_of caller_sid target_sid in
           join_room room_id caller_sid ;;
           join_room room_id target_sid ;;
           set_active_rooms (dict_set room_id [caller_sid; target_sid]) ;;
           cu <- (users <- gets connected_users ;; subscript users caller_sid) ;;
           let caller_name := u_name cu in
           tu <- (users <- gets connected_users ;; subscript users target_sid) ;;
           let target_name := u_name tu in
           emit "incoming_call"
             [("caller_sid", ostr caller_sid); ("caller_name", ostr caller_name);
              ("room_id", ostr room_id)]
             (ToRoom target_sid) ;;
           emit "call_initiated"
             [("target_sid", ostr target_sid); ("target_name", ostr target_name);
              ("room_id", ostr room_id)]
             ToSelf
     end)
    (fun e => emit "call_error" [("error", OErr e)] ToSelf).

(** [handle_accept_call(data)] *)
Definition handle_accept_call (request_sid : string) (data : dict pyval)
  : M unit :=
  try_except
    (let room := py_get data "room_id" in
     let accepter_sid := request_sid in
     rooms <- gets active_rooms ;;
     found <- py_in room rooms ;;
     match found with
     | None =>
         emit "call_error" [("error", ostr "Call no longer exists")] ToSelf
     | Some room_id =>
         room_users <- (rooms <- gets active_rooms ;; subscript rooms room_id) ;;
         caller_sid <-
           first (filter (fun u => negb (String.eqb u accepter_sid)) room_users) ;;
         au <- (users <- gets connected_users ;; subscript users accepter_sid) ;;
         let accepter_name := u_name au in
         emit "call_accepted"
           [("accepter_sid", ostr accepter_sid);
            ("accepter_name", ostr accepter_name);
            ("room_id", ostr room_id)]
           (ToRoom room_id)
     end)
    (fun e => emit "call_error" [("error", OErr e)] ToSelf).

(** [handle_reject_call(data)]; the [except] branch only logs. *)
Definition handle_reject_call (request_sid : string) (data : dict pyval)
  : M unit :=
  try_except
    (let room := py_get data "room_id" in
     let rejecter_sid := request_sid in
     rooms <- gets active_rooms ;;
     found <- py_in room rooms ;;
     match found with
     | Some room_id =>
         room_users <- (rooms <- gets active_rooms ;; subscript rooms room_id) ;;
         caller_sid <-
           first (filter (fun u => negb (String.eqb u rejecter_sid)) room_users) ;;
         ru <- (users <- gets connected_users ;; subscript users rejecter_sid) ;;
         let rejecter_name := u_name ru in
         emit "call_rejected" [("rejecter_name", ostr rejecter_name)]
           (ToRoom caller_sid) ;;
         cleanup_room room_id
     | None => ret tt
     end)
    (fun e => ret tt).

(** [handle_end_call(data)] *)
Definition handle_end_call (request_sid : string) (data : dict pyval)
  : M unit :=
  try_except
    (let room := py_get data "room_id" in
     let ender_sid := request_sid in
     rooms <- gets active_rooms ;;
     found <- py_in room rooms ;;
     match found with
     | Some room_id =>
         users <- gets connected_users ;;
         let ender_name := name_or ender_sid "Someone" users in
         emit "call_ended" [("ender_name", ostr ender_name)] (ToRoom room_id) ;;
         cleanup_room room_id
     | None => ret tt
     end)
    (fun e => ret tt).

(** [v and v in d]: the membership test is not evaluated on a falsy [v]. *)
Definition truthy_and_in {V : Type} (v : pyval) (d : dict V)
  : M (option string) :=
  if py_truthy v then py_in v d else ret None.

(** [handle_offer(data)] *)
Definition handle_offer (request_sid : string) (data : dict pyval) : M unit :=
  try_except
    (let target := py_get data "target_sid" in
     let offer := py_get data "offer" in
     users <- gets connected_users ;;
     found <- truthy_and_in target users ;;
     match found with
     | Some target_sid =>
         su <- (users <- gets connected_users ;; subscript users request_sid) ;;
         emit "offer"
           [("offer", OVal offer); ("sender_sid", ostr request_sid);
            ("sender_name", ostr (u_name su))]
           (ToRoom target_sid)
     | None => ret tt
     end)
    (fun e => ret tt).

(** [handle_answer(data)] *)
Definition handle_answer (request_sid : string) (data : dict pyval) : M unit :=
  try_except
    (let target := py_get data "target_sid" in
     let answer := py_get data "answer" in
     users <- gets connected_users ;;
     found <- truthy_and_in target users ;;
     match found with
     | Some target_sid =>
         emit "answer"
           [("answer", OVal answer); ("sender_sid", ostr request_sid)]
           (ToRoom target_sid)
     | None => ret tt
     end)
    (fun e => ret tt).

(** [handle_ice_candidate(data)] *)
Definition handle_ice_candidate (request_sid : string) (data : dict pyval)
  : M unit :=
  try_except
    (let target := py_get data "target_sid" in
     let candidate := py_get data "candidate" in
     users <- gets connected_users ;;
     found <- truthy_and_in target users ;;
     match found with
     | Some target_sid =>
         emit "ice_candidate"
           [("candidate", OVal candidate); ("sender_sid", ostr request_sid)]
           (ToRoom target_sid)
     | None => ret tt
     end)
    (fun e => ret tt).

(** [handle_send_message(data)] *)
Definition handle_send_message (request_sid : string) (data : dict pyval)
  : M unit :=
  try_except
    (let target := py_get data "target_sid" in
     message <- py_strip (py_get_default data "message" (PStr "")) ;;
     if String.eqb message "" || (1000 <? String.length message)%nat then ret tt
     else
       let sender_sid := request_sid in
       users <- gets connected_users ;;
       let sender_name := name_or sender_sid "Anonymous" users in
       found <- truthy_and_in target users ;;
       match found with
       | Some target_sid =>
           emit "receive_message"
             [("sender_sid", ostr sender_sid); ("sender_name", ostr sender_name);
              ("message", ostr message); ("private", obool true)]
             (ToRoom target_sid) ;;
           tu <- (users <- gets connected_users ;; subscript users target_sid) ;;
           emit "receive_message"
             [("sender_sid", ostr sender_sid);
              ("sender_name",
               ostr (sender_name ++ " (to " ++ u_name tu ++ ")"));
              ("message", ostr message); ("private", obool true)]
             (ToRoom sender_sid)
       | None =>
           emit "receive_message"
             [("sender_sid", ostr sender_sid); ("sender_name", ostr sender_name);
              ("message", ostr message); ("private", obool false)]
             (Broadcast true)
       end)
    (fun e => ret tt).

(** The two HTTP routes.  [index()] reads the clock, [now] is
    [datetime.utcnow().isoformat()]; [health()] is the monitoring probe.
    Both report [len(connected_users)]. *)
Definition index (now : string) (s : state) : list (string * outval) :=
  [("status", ostr "online");
   ("service", ostr "Yumee Signaling Server");
   ("connected_users", OVal (PInt (Z.of_nat (length (connected_users s)))));
   ("timestamp", ostr now)].

Definition health (s : state) : list (string * outval) :=
  [("status", ostr "healthy");
   ("users_online", OVal (PInt (Z.of_nat (length (connected_users s)))))].

(** ** The server as a transition system *)

(** An inbound event of one connection; [Register] carries the clock reading
    taken by the handler. *)
Inductive event : Type :=
| Connect
| Disconnect
| Register (now : string) (data : dict pyval)
| GetUsers
| CallUser (data : dict pyval)
| AcceptCall (data : dict pyval)
| RejectCall (data : dict pyval)
| EndCall (data : dict pyval)
| Offer (data : dict pyval)
| Answer (data : dict pyval)
| IceCandidate (data : dict pyval)
| SendMessage (data : dict pyval).

Definition handle (request_sid : string) (ev : event) : M unit :=
  match ev with
  | Connect => handle_connect request_sid
  | Disconnect => handle_disconnect request_sid
  | Register now data => handle_register request_sid now data
  | GetUsers => handle_get_users request_sid
  | CallUser data => handle_call_user request_sid data
  | AcceptCall data => handle_accept_call request_sid data
  | RejectCall data => handle_reject_call request_sid data
  | EndCall data => handle_end_call request_sid data
  | Offer data => handle_offer request_sid data
  | Answer data => handle_answer request_sid data
  | IceCandidate data => handle_ice_candidate request_sid data
  | SendMessage data => handle_send_message request_sid data
  end.

(** The state after a sequence of events, and everything emitted on the way. *)
Fixpoint run (trace : list (string * event)) (s : state)
  : state * list emission :=
  match trace with
  | [] => (s, [])
  | (sid, ev) :: rest =>
      let r := handle sid ev s in
      let (s', out) := run rest (state_of r) in
      (s', output_of r ++ out)
  end.

Inductive reachable : state -> Prop :=
| reach_init : reachable initial_state
| reach_step s sid ev :
    reachable s -> reachable (state_of (handle sid ev s)).

(** Participants of the rooms of the session table that contain [sid]. *)
Definition rooms_of (sid : string) (s : state) : list string :=
  map fst (filter (fun kv : string * list string => list_mem sid (snd kv))
                  (active_rooms s)).

(** Well-formed tables: keys are unique, and every room holds the caller and
    the target that created it, under the identifier derived from them. *)
Definition room_ok (kv : string * list string) : Prop :=
  exists c t, snd kv = [c; t] /\ c <> t /\ fst kv = room_id_of c t.

Record wf (s : state) : Prop := mkWf {
  wf_users : NoDup (dict_keys (connected_users s));
  wf_rooms : NoDup (dict_keys (active_rooms s));
  wf_pairs : Forall room_ok (active_rooms s)
}.

(** ** Vocabulary of the statements *)

(** [m] keeps the property [P] of the state, whether it returns or raises. *)
Definition preserves (P : state -> Prop) {A : Type} (m : M A) : Prop :=
  forall s, P s -> P (state_of (m s)).

(** Every character of [s] is whitespace. *)
Fixpoint all_space (s : string) : bool :=
  match s with
  | EmptyString => true
  | String c r => is_space c && all_space r
  end.

(** [t] neither starts nor ends with a whitespace character. *)
Definition no_outer_space (t : string) : Prop :=
  (forall c u, t = String c u -> is_space c = false) /\
  (forall u c, t = (u ++ String c "")%string -> is_space c = false).

(** What "the whitespace-trimmed name" means: [s] is [t] between two runs of
    whitespace, and [t] has no whitespace left at either end. *)
Definition trimmed_of (s t : string) : Prop :=
  exists l r,
    s = (l ++ t ++ r)%string /\ all_space l = true /\ all_space r = true /\
    no_outer_space t.

(** The room [kv] has both [a] and [b] among its participants. *)
Definition room_has (a b : string) (kv : string * list string) : bool :=
  list_mem a (snd kv) && list_mem b (snd kv).

(** The payload of [user_list] for a registry. *)
Definition user_list_payload (users : dict user_info)
  : list (string * outval) :=
  [("users",
    OVal (PList
      (map (fun kv : string * user_info =>
              PDict [("name", PStr (u_name (snd kv))); ("sid", PStr (fst kv))])
           users)))].

(** The [call_ended] events of one room for the disconnecting [sid]. *)
Definition disconnect_notices (sid : string) (users : dict user_info)
    (kv : string * list string) : list emission :=
  map (fun other_sid =>
         Emit "call_ended"
           [("ender_name", ostr (name_or sid "Someone" users));
            ("reason", ostr "disconnected")]
           (ToRoom other_sid))
      (filter (fun u => negb (String.eqb u sid)) (snd kv)).

(** The dictionary after [del d[k]] for each [k] of [ks] in turn. *)
Definition dict_del_all {V : Type} (ks : list string) (d : dict V) : dict V :=
  fold_left (fun acc k => dict_del k acc) ks d.

(** [call_ended] events addressed to [other]. *)
Definition call_ended_to (other : string) (e : emission) : bool :=
  String.eqb (ev_name e) "call_ended" &&
  match ev_dest e with
  | ToRoom room => String.eqb room other
  | _ => false
  end.

(** The answer of [handle_accept_call] to an unknown room. *)
Definition call_error_missing : emission :=
  Emit "call_error" [("error", ostr "Call no longer exists")] ToSelf.

(** A small scenario used below: Alice, Bob and Carol are registered and
    Alice has called Bob. *)
Definition alice_calls_bob : list (string * event) :=
  [("A", Register "t0" [("name", PStr "Alice")]);
   ("B", Register "t1" [("name", PStr "Bob")]);
   ("C", Register "t2" [("name", PStr "Carol")]);
   ("A", CallUser [("target_sid", PStr "B")])].

Definition ringing_state : state := fst (run alice_calls_bob initial_state).

(** Only Bob is registered. *)
Definition bob_only : state :=
  fst (run [("B", Register "t1" [("name", PStr "Bob")])] initial_state).

(** Only Alice is registered. *)
Definition alice_only : state :=
  fst (run [("A", Register "t0" [("name", PStr "Alice")])] initial_state).

(** The name [handle_register] keeps for a proposed name: the stripped name,
    or "Anonymous" when that is empty or longer than 30 characters. *)
Definition display_name_of (proposed : string) : string :=
  if String.eqb (strip proposed) "" || (30 <? String.length (strip proposed))%nat
  then "Anonymous" else strip proposed.

(** A registry entry as [handle_register] writes them: filed under its own
    connection id, with a name of 1 to 30 characters and no whitespace at
    either end. *)
Definition user_ok (kv : string * user_info) : Prop :=
  u_sid (snd kv) = fst kv /\
  (1 <= String.length (u_name (snd kv)) <= 30)%nat /\
  no_outer_space (u_name (snd kv)).

(** The events whose handlers only read the tables. *)
Definition read_only (ev : event) : bool :=
  match ev with
  | Connect | GetUsers | AcceptCall _ | Offer _ | Answer _ | IceCandidate _
  | SendMessage _ => true
  | Disconnect | Register _ _ | CallUser _ | RejectCall _ | EndCall _ => false
  end.

(** * Properties *)

(** ** The scenarios of the specification *)

(** Alice calls Bob: Bob is told of the incoming call, Alice gets the
    confirmation, and the room of the two is in the table. *)
Example scenario_call :
  active_rooms ringing_state = [("call_A_B", ["A"; "B"])] /\
  skipn 9 (snd (run alice_calls_bob initial_state)) =
    [Emit "incoming_call"
       [("caller_sid", ostr "A"); ("caller_name", ostr "Alice");
        ("room_id", ostr "call_A_B")] (ToRoom "B");
     Emit "call_initiated"
       [("target_sid", ostr "B"); ("target_name", ostr "Bob");
        ("room_id", ostr "call_A_B")] ToSelf].
Proof. split; reflexivity. Qed.

(** Alice writes to Bob: Bob gets the private message, Alice the echo. *)
Example scenario_private_message :
  output_of
    (handle_send_message "A" [("target_sid", PStr "B"); ("message", PStr "hi")]
       ringing_state) =
    [Emit "receive_message"
       [("sender_sid", ostr "A"); ("sender_name", ostr "Alice");
        ("message", ostr "hi"); ("private", obool true)] (ToRoom "B");
     Emit "receive_message"
       [("sender_sid", ostr "A"); ("sender_name", ostr "Alice (to Bob)");
        ("message", ostr "hi"); ("private", obool true)] (ToRoom "A")].
Proof. reflexivity. Qed.

(** ** Dictionaries *)

Section DictFacts.
Context {V : Type}.
Implicit Types (d : dict V) (k : string) (v : V).

Lemma dict_mem_In k d : dict_mem k d = true <-> In k (dict_keys d).
Proof.
  unfold dict_mem. induction d as [|[k' v'] r IH]; simpl.
  - split; [discriminate | tauto].
  - destruct (String.eqb_spec k k') as [->|Hne].
    + split; auto.
    + rewrite IH. split; [auto | intros [H|H]; [congruence | exact H]].
Qed.

Lemma dict_mem_false_In k d : dict_mem k d = false <-> ~ In k (dict_keys d).
Proof.
  rewrite <- dict_mem_In. destruct (dict_mem k d); split; congruence.
Qed.

Lemma dict_get_In k v d : dict_get k d = Some v -> In (k, v) d.
Proof.
  induction d as [|[k' v'] r IH]; simpl; [discriminate|].
  destruct (String.eqb_spec k k') as [->|Hne].
  - intros [= ->]. now left.
  - intros H. right. auto.
Qed.

Lemma In_dict_get k v d :
  NoDup (dict_keys d) -> In (k, v) d -> dict_get k d = Some v.
Proof.
  induction d as [|[k' v'] r IH]; simpl; [tauto|].
  intros Hnd [H|H].
  - injection H as -> ->. now rewrite String.eqb_refl.
  - inversion Hnd as [|? ? Hnotin Hnd']; subst.
    destruct (String.eqb_spec k k') as [->|Hne].
    + exfalso. apply Hnotin. change k' with (fst (k', v)).
      now apply in_map.
    + auto.
Qed.

Lemma dict_get_set_same k v d : dict_get k (dict_set k v d) = Some v.
Proof.
  induction d as [|[k' v'] r IH]; simpl.
  - now rewrite String.eqb_refl.
  - destruct (String.eqb_spec k k') as [->|Hne]; simpl.
    + now rewrite String.eqb_refl.
    + destruct (String.eqb_spec k k'); [congruence | exact IH].
Qed.

Lemma dict_get_set_other k k' v d :
  k' <> k -> dict_get k' (dict_set k v d) = dict_get k' d.
Proof.
  intros Hne. induction d as [|[k0 v0] r IH]; simpl.
  - destruct (String.eqb_spec k' k); [congruence | reflexivity].
  - destruct (String.eqb_spec k k0) as [->|Hne0]; simpl.
    + destruct (String.eqb_spec k' k0); [congruence | reflexivity].
    + destruct (String.eqb_spec k' k0); [reflexivity | exact IH].
Qed.

Lemma dict_keys_set_present k v d :
  dict_mem k d = true -> dict_keys (dict_set k v d) = dict_keys d.
Proof.
  unfold dict_mem. induction d as [|[k' v'] r IH]; simpl; [discriminate|].
  destruct (String.eqb_spec k k') as [->|Hne]; simpl; intros H.
  - reflexivity.
  - f_equal. auto.
Qed.

Lemma dict_keys_set_absent k v d :
  dict_mem k d = false -> dict_keys (dict_set k v d) = dict_keys d ++ [k].
Proof.
  unfold dict_mem. induction d as [|[k' v'] r IH]; simpl; [reflexivity|].
  destruct (String.eqb_spec k k') as [->|Hne]; simpl; intros H.
  - discriminate.
  - f_equal. auto.
Qed.

Lemma dict_set_length_present k v d :
  dict_mem k d = true -> length (dict_set k v d) = length d.
Proof.
  intros H. apply dict_keys_set_present with (v := v) in H.
  unfold dict_keys in H.
  rewrite <- (length_map fst (dict_set k v d)), H. apply length_map.
Qed.

Lemma dict_set_NoDup k v d :
  NoDup (dict_keys d) -> NoDup (dict_keys (dict_set k v d)).
Proof.
  intros Hnd. destruct (dict_mem k d) eqn:E.
  - now rewrite dict_keys_set_present.
  - rewrite dict_keys_set_absent by exact E.
    apply dict_mem_false_In in E.
    apply NoDup_rev in Hnd.
    rewrite <- (rev_involutive (dict_keys d ++ [k])).
    apply NoDup_rev. rewrite rev_app_distr. simpl.
    constructor; [|exact Hnd]. now rewrite <- in_rev.
Qed.

Lemma dict_set_In k v d kv :
  In kv (dict_set k v d) -> kv = (k, v) \/ In kv d.
Proof.
  induction d as [|[k' v'] r IH]; simpl.
  - intros [H|[]]. now left.
  - destruct (String.eqb_spec k k') as [->|Hne]; simpl.
    + intros [H|H]; auto.
    + intros [H|H]; auto. destruct (IH H); auto.
Qed.

Lemma dict_set_Forall (P : string * V -> Prop) k v d :
  P (k, v) -> Forall P d -> Forall P (dict_set k v d).
Proof.
  intros Hk Hd. apply Forall_forall. intros kv Hin.
  destruct (dict_set_In _ _ _ _ Hin) as [->|H]; [exact Hk|].
  rewrite Forall_forall in Hd. auto.
Qed.

Lemma dict_get_del_same k d : dict_get k (dict_del k d) = None.
Proof.
  unfold dict_del. induction d as [|[k' v'] r IH]; simpl; [reflexivity|].
  destruct (String.eqb_spec k k') as [->|Hne]; simpl; [exact IH|].
  destruct (String.eqb_spec k k'); [congruence | exact IH].
Qed.

Lemma dict_mem_del_same k d : dict_mem k (dict_del k d) = false.
Proof. unfold dict_mem. now rewrite dict_get_del_same. Qed.

Lemma dict_get_del_other k k' d :
  k' <> k -> dict_get k' (dict_del k d) = dict_get k' d.
Proof.
  intros Hne. unfold dict_del.
  induction d as [|[k0 v0] r IH]; simpl; [reflexivity|].
  destruct (String.eqb_spec k k0) as [->|Hne0]; simpl.
  - destruct (String.eqb_spec k' k0); [congruence | exact IH].
  - destruct (String.eqb_spec k' k0); [reflexivity | exact IH].
Qed.

Lemma dict_keys_filter_NoDup (f : string * V -> bool) d :
  NoDup (dict_keys d) -> NoDup (dict_keys (filter f d)).
Proof.
  unfold dict_keys. induction d as [|kv r IH]; simpl; [auto|].
  intros Hnd. inversion Hnd as [|? ? Hnotin Hnd']; subst.
  destruct (f kv); simpl; [|auto].
  constructor; [|auto].
  intros Hin. apply Hnotin. apply in_map_iff in Hin.
  destruct Hin as [x [Hx Hin]]. apply filter_In in Hin.
  apply in_map_iff. exists x. tauto.
Qed.

Lemma dict_del_NoDup k d :
  NoDup (dict_keys d) -> NoDup (dict_keys (dict_del k d)).
Proof. apply dict_keys_filter_NoDup. Qed.

Lemma dict_del_absent k d : dict_mem k d = false -> dict_del k d = d.
Proof.
  unfold dict_mem, dict_del.
  induction d as [|[k' v'] r IH]; simpl; [reflexivity|].
  destruct (String.eqb_spec k k') as [->|Hne]; simpl; [discriminate|].
  intros H. f_equal. auto.
Qed.
End DictFacts.

(** ** Room identifiers *)

Lemma ltb_asym (a b : string) : String.ltb a b = true -> String.ltb b a = false.
Proof.
  unfold String.ltb. rewrite (String.compare_antisym b a).
  destruct (String.compare a b); simpl; congruence.
Qed.

Lemma ltb_total (a b : string) :
  String.ltb a b = false -> String.ltb b a = false -> a = b.
Proof.
  unfold String.ltb. rewrite (String.compare_antisym b a).
  destruct (String.compare a b) eqn:E; simpl; try congruence.
  intros _ _. now apply String.compare_eq_iff.
Qed.

Lemma py_min_comm (a b : string) : py_min a b = py_min b a.
Proof.
  unfold py_min.
  destruct (String.ltb b a) eqn:Hba, (String.ltb a b) eqn:Hab; auto.
  - apply ltb_asym in Hba. congruence.
  - symmetry. now apply ltb_total.
Qed.

Lemma py_max_comm (a b : string) : py_max a b = py_max b a.
Proof.
  unfold py_max.
  destruct (String.ltb b a) eqn:Hba, (String.ltb a b) eqn:Hab; auto.
  - apply ltb_asym in Hba. congruence.
  - now apply ltb_total.
Qed.

Lemma room_id_of_comm (a b : string) : room_id_of a b = room_id_of b a.
Proof.
  unfold room_id_of. now rewrite (py_min_comm a b), (py_max_comm a b).
Qed.

(** C8: the room identifier derived in [handle_call_user] is symmetric in the
    two connection ids: [room_id_of a b = room_id_of b a] for all [a], [b],
    so the identifier made when [a] calls [b] is the one made when [b] calls
    [a]. *)
Theorem room_id_symmetric (a b : string) : room_id_of a b = room_id_of b a.
Proof.
  unfold room_id_of, py_min, py_max.
  destruct (String.ltb b a) eqn:Hba, (String.ltb a b) eqn:Hab; auto.
  - apply ltb_asym in Hba. congruence.
  - now rewrite (ltb_total a b Hab Hba).
Qed.

(** ** Reasoning about handlers *)

Section Preserves.
Variable P : state -> Prop.

Lemma preserves_ret {A} (a : A) : preserves P (ret a).
Proof. intros s H. exact H. Qed.

Lemma preserves_raise {A} (e : exn) : preserves P (@raise A e).
Proof. intros s H. exact H. Qed.

Lemma preserves_gets {A} (f : state -> A) : preserves P (gets f).
Proof. intros s H. exact H. Qed.

Lemma preserves_emit n p d : preserves P (emit n p d).
Proof. intros s H. exact H. Qed.

Lemma preserves_modify (f : state -> state) :
  (forall s, P s -> P (f s)) -> preserves P (modify f).
Proof. intros Hf s H. apply Hf, H. Qed.

Lemma preserves_bind {A B} (m : M A) (f : A -> M B) :
  preserves P m -> (forall a, preserves P (f a)) -> preserves P (bind m f).
Proof.
  intros Hm Hf s H. specialize (Hm s H).
  unfold bind, state_of in *.
  destruct (m s) as [[[e|a] s1] o1]; simpl in *; [exact Hm|].
  specialize (Hf a s1 Hm). unfold state_of in Hf.
  destruct (f a s1) as [[r s2] o2]. exact Hf.
Qed.

Lemma preserves_try {A} (m : M A) (h : exn -> M A) :
  preserves P m -> (forall e, preserves P (h e)) ->
  preserves P (try_except m h).
Proof.
  intros Hm Hh s H. specialize (Hm s H).
  unfold try_except, state_of in *.
  destruct (m s) as [[[e|a] s1] o1]; simpl in *; [|exact Hm].
  specialize (Hh e s1 Hm). unfold state_of in Hh.
  destruct (h e s1) as [[r s2] o2]. exact Hh.
Qed.

Lemma preserves_for_each {A} (l : list A) (body : A -> M unit) :
  (forall x, preserves P (body x)) -> preserves P (for_each l body).
Proof.
  intros Hb. induction l as [|x r IH]; simpl.
  - apply preserves_ret.
  - apply preserves_bind; auto.
Qed.

Lemma preserves_py_in {V} v (d : dict V) : preserves P (py_in v d).
Proof. destruct v; simpl; auto using preserves_ret, preserves_raise. Qed.

Lemma preserves_truthy_and_in {V} v (d : dict V) :
  preserves P (truthy_and_in v d).
Proof.
  unfold truthy_and_in. destruct (py_truthy v);
    auto using preserves_ret, preserves_py_in.
Qed.

Lemma preserves_subscript {V} (d : dict V) k : preserves P (subscript d k).
Proof.
  unfold subscript. destruct (dict_get k d);
    auto using preserves_ret, preserves_raise.
Qed.

Lemma preserves_first {A} (l : list A) : preserves P (first l).
Proof. destruct l; simpl; auto using preserves_ret, preserves_raise. Qed.

Lemma preserves_py_strip v : preserves P (py_strip v).
Proof. destruct v; simpl; auto using preserves_ret, preserves_raise. Qed.

Lemma preserves_broadcast_user_list to : preserves P (broadcast_user_list to).
Proof.
  unfold broadcast_user_list. apply preserves_bind; [apply preserves_gets|].
  intros users. destruct to as [sid|]; [destruct (negb _)|];
    apply preserves_emit.
Qed.
End Preserves.

(** Break a handler down along its binds and branches. *)
Ltac preserves_step :=
  lazymatch goal with
  | |- preserves _ (bind _ _) => apply preserves_bind; [|intros ?]
  | |- preserves _ (try_except _ _) => apply preserves_try; [|intros ?]
  | |- preserves _ (for_each _ _) => apply preserves_for_each; intros ?
  | |- preserves _ (ret _) => apply preserves_ret
  | |- preserves _ (raise _) => apply preserves_raise
  | |- preserves _ (gets _) => apply preserves_gets
  | |- preserves _ (emit _ _ _) => apply preserves_emit
  | |- preserves _ (py_in _ _) => apply preserves_py_in
  | |- preserves _ (truthy_and_in _ _) => apply preserves_truthy_and_in
  | |- preserves _ (subscript _ _) => apply preserves_subscript
  | |- preserves _ (first _) => apply preserves_first
  | |- preserves _ (py_strip _) => apply preserves_py_strip
  | |- preserves _ (broadcast_user_list _) => apply preserves_broadcast_user_list
  | |- preserves _ (match ?x with Some _ => _ | None => _ end) => destruct x
  | |- preserves _ (if ?b then _ else _) => destruct b eqn:?
  end.

(** Handlers that only read the tables leave every property in place. *)
Lemma handle_connect_preserves P sid : preserves P (handle_connect sid).
Proof. unfold handle_connect. repeat preserves_step. Qed.

Lemma handle_get_users_preserves P sid : preserves P (handle_get_users sid).
Proof. unfold handle_get_users. repeat preserves_step. Qed.

Lemma handle_accept_call_preserves P sid data :
  preserves P (handle_accept_call sid data).
Proof. unfold handle_accept_call. repeat preserves_step. Qed.

Lemma handle_offer_preserves P sid data : preserves P (handle_offer sid data).
Proof. unfold handle_offer. repeat preserves_step. Qed.

Lemma handle_answer_preserves P sid data : preserves P (handle_answer sid data).
Proof. unfold handle_answer. repeat preserves_step. Qed.

Lemma handle_ice_candidate_preserves P sid data :
  preserves P (handle_ice_candidate sid data).
Proof. unfold handle_ice_candidate. repeat preserves_step. Qed.

Lemma handle_send_message_preserves P sid data :
  preserves P (handle_send_message sid data).
Proof. unfold handle_send_message. repeat preserves_step. Qed.

(** ** Well-formedness is an invariant *)

Lemma wf_initial : wf initial_state.
Proof. constructor; simpl; constructor. Qed.

Lemma join_room_wf room sid : preserves wf (join_room room sid).
Proof. apply preserves_modify. intros s [H1 H2 H3]. now constructor. Qed.

Lemma leave_room_wf room sid : preserves wf (leave_room room sid).
Proof. apply preserves_modify. intros s [H1 H2 H3]. now constructor. Qed.

Lemma del_room_wf k : preserves wf (set_active_rooms (dict_del k)).
Proof.
  apply preserves_modify. intros s [H1 H2 H3]. constructor; simpl; auto.
  - now apply dict_del_NoDup.
  - unfold dict_del. apply Forall_forall. intros kv Hin.
    apply filter_In in Hin. rewrite Forall_forall in H3. now apply H3.
Qed.

Lemma set_room_wf c t :
  c <> t ->
  preserves wf (set_active_rooms (dict_set (room_id_of c t) [c; t])).
Proof.
  intros Hne. apply preserves_modify. intros s [H1 H2 H3].
  constructor; simpl; auto.
  - now apply dict_set_NoDup.
  - apply dict_set_Forall; [|exact H3]. exists c, t. simpl. auto.
Qed.

Lemma set_user_wf k u : preserves wf (set_connected_users (dict_set k u)).
Proof.
  apply preserves_modify. intros s [H1 H2 H3]. constructor; simpl; auto.
  now apply dict_set_NoDup.
Qed.

Lemma del_user_wf k : preserves wf (set_connected_users (dict_del k)).
Proof.
  apply preserves_modify. intros s [H1 H2 H3]. constructor; simpl; auto.
  now apply dict_del_NoDup.
Qed.

Ltac wf_step :=
  first
    [ preserves_step
    | apply join_room_wf | apply leave_room_wf | apply del_room_wf
    | apply set_user_wf | apply del_user_wf ].

Lemma cleanup_room_wf room_id : preserves wf (cleanup_room room_id).
Proof. unfold cleanup_room. repeat wf_step. Qed.

Lemma cleanup_user_rooms_wf sid : preserves wf (cleanup_user_rooms sid).
Proof.
  unfold cleanup_user_rooms. repeat (wf_step || apply cleanup_room_wf).
Qed.

Lemma handle_disconnect_wf sid : preserves wf (handle_disconnect sid).
Proof.
  unfold handle_disconnect. repeat (wf_step || apply cleanup_user_rooms_wf).
Qed.

Lemma handle_register_wf sid now data :
  preserves wf (handle_register sid now data).
Proof. unfold handle_register. repeat wf_step. Qed.

Lemma handle_call_user_wf sid data : preserves wf (handle_call_user sid data).
Proof.
  unfold handle_call_user. repeat wf_step.
  apply set_room_wf. now apply String.eqb_neq.
Qed.

Lemma handle_reject_call_wf sid data :
  preserves wf (handle_reject_call sid data).
Proof.
  unfold handle_reject_call. repeat (wf_step || apply cleanup_room_wf).
Qed.

Lemma handle_end_call_wf sid data : preserves wf (handle_end_call sid data).
Proof.
  unfold handle_end_call. repeat (wf_step || apply cleanup_room_wf).
Qed.

Lemma handle_wf sid ev : preserves wf (handle sid ev).
Proof.
  destruct ev; simpl;
    auto using handle_connect_preserves, handle_disconnect_wf,
      handle_register_wf, handle_get_users_preserves, handle_call_user_wf,
      handle_accept_call_preserves, handle_reject_call_wf, handle_end_call_wf,
      handle_offer_preserves, handle_answer_preserves,
      handle_ice_candidate_preserves, handle_send_message_preserves.
Qed.

Lemma reachable_wf s : reachable s -> wf s.
Proof.
  induction 1 as [|s sid ev _ IH]; [apply wf_initial | now apply handle_wf].
Qed.

Lemma run_reachable trace s :
  reachable s -> reachable (fst (run trace s)).
Proof.
  revert s. induction trace as [|[sid ev] rest IH]; simpl; intros s H; auto.
  specialize (IH (state_of (handle sid ev s)) (reach_step _ sid ev H)).
  destruct (run rest (state_of (handle sid ev s))). exact IH.
Qed.

(** ** Trimming *)

Lemma append_empty_r (s : string) : (s ++ "")%string = s.
Proof. induction s; simpl; congruence. Qed.

Lemma lstrip_split s :
  exists l, s = (l ++ lstrip s)%string /\ all_space l = true /\
            (forall c u, lstrip s = String c u -> is_space c = false).
Proof.
  induction s as [|c r [l [H1 [H2 H3]]]]; simpl.
  - exists "". repeat split. discriminate.
  - destruct (is_space c) eqn:E.
    + exists (String c l). simpl. rewrite E, H2. repeat split; auto.
      now rewrite <- H1.
    + exists "". repeat split. intros c' u [= <- _]. exact E.
Qed.

Lemma rstrip_split s :
  exists r, s = (rstrip s ++ r)%string /\ all_space r = true /\
            (forall u c, rstrip s = (u ++ String c "")%string -> is_space c = false).
Proof.
  induction s as [|c s' [r [H1 [H2 H3]]]]; simpl.
  - exists "". repeat split. intros [|? ?]; discriminate.
  - destruct (rstrip s') as [|c' t] eqn:E.
    + destruct (is_space c) eqn:Ec.
      * exists (String c r). simpl in *. rewrite Ec, H2.
        split; [congruence|]. split; [reflexivity|].
        intros [|? ?]; discriminate.
      * exists r. simpl in *. split; [congruence|]. split; [exact H2|].
        intros [|a [|? ?]] c0; simpl; intros [= ]; subst; auto.
    + exists r. simpl in *. split; [congruence|]. split; [exact H2|].
      intros [|a u] c0; simpl.
      * intros H. inversion H.
      * intros [= -> Hu]. eauto.
Qed.

Lemma strip_trimmed s : trimmed_of s (strip s).
Proof.
  unfold strip.
  destruct (lstrip_split s) as [l [H1 [H2 H3]]].
  destruct (rstrip_split (lstrip s)) as [r [H4 [H5 H6]]].
  exists l, r. repeat split; auto.
  - now rewrite <- H4.
  - intros c u Hu. rewrite Hu in H4. simpl in H4. eauto.
Qed.

Lemma lstrip_all_space l x : all_space l = true -> lstrip (l ++ x)%string = lstrip x.
Proof.
  induction l as [|c l IH]; simpl; auto.
  intros H. apply andb_prop in H. destruct H as [-> H]. auto.
Qed.

Lemma rstrip_all_space r : all_space r = true -> rstrip r = "".
Proof.
  induction r as [|c r IH]; simpl; auto.
  intros H. apply andb_prop in H. destruct H as [-> H]. now rewrite IH.
Qed.

Lemma rstrip_append_space x r :
  all_space r = true -> rstrip (x ++ r)%string = rstrip x.
Proof.
  intros H. induction x as [|c x IH]; simpl.
  - now apply rstrip_all_space.
  - now rewrite IH.
Qed.

Lemma rstrip_fixed t :
  (forall u c, t = (u ++ String c "")%string -> is_space c = false) -> rstrip t = t.
Proof.
  induction t as [|c t IH]; simpl; auto.
  intros H. rewrite IH.
  - destruct t; [|reflexivity]. now rewrite (H "" c eq_refl).
  - intros u c0 ->. apply (H (String c u) c0). reflexivity.
Qed.

Lemma strip_unique s t : trimmed_of s t -> strip s = t.
Proof.
  intros [l [r [-> [Hl [Hr [Hhead Htail]]]]]]. unfold strip.
  rewrite lstrip_all_space by exact Hl.
  destruct t as [|c u]; simpl.
  - destruct (lstrip_split r) as [l' [H1 _]].
    assert (Hs : all_space (lstrip r) = true).
    { clear -Hr. induction r as [|c r IH]; simpl in *; auto.
      apply andb_prop in Hr. destruct Hr as [-> Hr]. auto. }
    now apply rstrip_all_space.
  - rewrite (Hhead c u eq_refl).
    change (String c (u ++ r)%string) with (String c u ++ r)%string.
    rewrite rstrip_append_space by exact Hr. now apply rstrip_fixed.
Qed.

(** ** Registration *)

Lemma eqb_empty_length (t : string) :
  String.eqb t "" = (String.length t =? 0)%nat.
Proof. destruct t; reflexivity. Qed.

(** C9: [register] with a proposed name (a string) stores, and confirms to
    the registrant, the whitespace-trimmed name when it has between 1 and 30
    characters and the default "Anonymous" otherwise; the entry is written
    under the connection id, every other entry is untouched, and for an id
    that is already registered the key list is unchanged: the entry is
    overwritten in place, no second one is created. *)
Theorem register_stores_trimmed_or_default
    (sid now proposed trimmed : string) (data : dict pyval) (s : state) :
  dict_get "name" data = Some (PStr proposed) ->
  trimmed_of proposed trimmed ->
  let r := handle_register sid now data s in
  let accepted :=
    if ((1 <=? String.length trimmed) && (String.length trimmed <=? 30))%nat
    then trimmed else "Anonymous" in
  result_of r = inr tt /\
  dict_get sid (connected_users (state_of r)) = Some (mkUser accepted sid now) /\
  (exists rest,
     output_of r =
     Emit "registered"
       [("success", obool true); ("name", ostr accepted); ("sid", ostr sid)]
       ToSelf :: rest) /\
  (forall k, k <> sid ->
     dict_get k (connected_users (state_of r)) = dict_get k (connected_users s)) /\
  (dict_mem sid (connected_users s) = true ->
     dict_keys (connected_users (state_of r)) = dict_keys (connected_users s)) /\
  (dict_mem sid (connected_users s) = false ->
     dict_keys (connected_users (state_of r)) =
     dict_keys (connected_users s) ++ [sid]) /\
  active_rooms (state_of r) = active_rooms s.
Proof.
  intros Hname Htrim. apply strip_unique in Htrim.
  unfold handle_register, py_get_default. rewrite Hname.
  cbv [try_except bind py_strip ret set_connected_users modify emit
       broadcast_user_list gets result_of state_of output_of].
  cbn [fst snd app connected_users active_rooms]. rewrite Htrim.
  assert (Hacc :
    (if String.eqb trimmed "" || (30 <? String.length trimmed)%nat
     then "Anonymous" else trimmed) =
    (if ((1 <=? String.length trimmed) && (String.length trimmed <=? 30))%nat
     then trimmed else "Anonymous")).
  { rewrite eqb_empty_length.
    destruct (Nat.eqb_spec (String.length trimmed) 0),
             (Nat.ltb_spec 30 (String.length trimmed)),
             (Nat.leb_spec 1 (String.length trimmed)),
             (Nat.leb_spec (String.length trimmed) 30);
      simpl; try reflexivity; lia. }
  rewrite Hacc. repeat split.
  - apply dict_get_set_same.
  - eexists. reflexivity.
  - intros k Hk. now apply dict_get_set_other.
  - apply dict_keys_set_present.
  - apply dict_keys_set_absent.
Qed.

Lemma register_stores_trimmed_or_default_witness :
  let r := handle_register "A" "t0" [("name", PStr "  Alice ")] initial_state in
  result_of r = inr tt /\
  dict_get "A" (connected_users (state_of r)) = Some (mkUser "Alice" "A" "t0") /\
  (exists rest,
     output_of r =
     Emit "registered"
       [("success", obool true); ("name", ostr "Alice"); ("sid", ostr "A")]
       ToSelf :: rest) /\
  (forall k, k <> "A" ->
     dict_get k (connected_users (state_of r)) = dict_get k []) /\
  (dict_mem "A" (connected_users initial_state) = true ->
     dict_keys (connected_users (state_of r)) = []) /\
  (dict_mem "A" (connected_users initial_state) = false ->
     dict_keys (connected_users (state_of r)) = [] ++ ["A"]) /\
  active_rooms (state_of r) = [].
Proof.
  exact (register_stores_trimmed_or_default "A" "t0" "  Alice " "Alice"
           [("name", PStr "  Alice ")] initial_state eq_refl
           (strip_trimmed "  Alice ")).
Defined.

(** ** Initiating a call *)

(** What [handle_call_user] does when the target is registered, differs from
    the caller, and the caller is registered too. *)
Lemma handle_call_user_spec (caller target : string) (cu tu : user_info)
    (data : dict pyval) (s : state) :
  py_get data "target_sid" = PStr target ->
  dict_get target (connected_users s) = Some tu ->
  dict_get caller (connected_users s) = Some cu ->
  caller <> target ->
  let r := handle_call_user caller data s in
  result_of r = inr tt /\
  connected_users (state_of r) = connected_users s /\
  active_rooms (state_of r) =
    dict_set (room_id_of caller target) [caller; target] (active_rooms s) /\
  output_of r =
    [Emit "incoming_call"
       [("caller_sid", ostr caller); ("caller_name", ostr (u_name cu));
        ("room_id", ostr (room_id_of caller target))]
       (ToRoom target);
     Emit "call_initiated"
       [("target_sid", ostr target); ("target_name", ostr (u_name tu));
        ("room_id", ostr (room_id_of caller target))]
       ToSelf].
Proof.
  intros Hdata Ht Hc Hne. unfold handle_call_user. rewrite Hdata.
  apply String.eqb_neq in Hne.
  cbv [try_except bind py_in ret gets dict_mem result_of state_of output_of].
  rewrite Ht. rewrite Hne.
  cbv [join_room set_active_rooms modify subscript emit ret bind gets].
  cbn [fst snd app connected_users active_rooms]. rewrite Hc.
  cbn [fst snd app connected_users active_rooms]. rewrite Ht.
  cbn [fst snd app connected_users active_rooms]. auto.
Qed.

Lemma ringing_state_reachable : reachable ringing_state.
Proof. apply run_reachable, reach_init. Qed.

(** C1, as stated, fails: [handle_call_user] has no busy guard.  Alice is
    already in a room with Bob; her call to Carol is not answered with a
    [call_error], a second room is created, and in the resulting reachable
    state Alice's connection id is in two rooms. *)
Lemma call_user_busy_counterexample :
  let r := handle_call_user "A" [("target_sid", PStr "C")] ringing_state in
  reachable ringing_state /\
  rooms_of "A" ringing_state = ["call_A_B"] /\
  output_of r =
    [Emit "incoming_call"
       [("caller_sid", ostr "A"); ("caller_name", ostr "Alice");
        ("room_id", ostr "call_A_C")] (ToRoom "C");
     Emit "call_initiated"
       [("target_sid", ostr "C"); ("target_name", ostr "Carol");
        ("room_id", ostr "call_A_C")] ToSelf] /\
  reachable (state_of r) /\
  active_rooms (state_of r) =
    [("call_A_B", ["A"; "B"]); ("call_A_C", ["A"; "C"])] /\
  rooms_of "A" (state_of r) = ["call_A_B"; "call_A_C"].
Proof.
  split; [exact ringing_state_reachable|].
  split; [reflexivity|]. split; [reflexivity|].
  split; [|split; reflexivity].
  exact (reach_step _ "A" (CallUser [("target_sid", PStr "C")])
           ringing_state_reachable).
Qed.

(** C1, amended: [handle_call_user] creates (or overwrites) the room keyed by
    the identifier of caller and target, with exactly these two participants,
    whenever the target is registered, differs from the caller and the caller
    is registered, whether or not either of them is already in another room;
    it notifies the target of the incoming call and confirms to the caller,
    emits no [call_error], and leaves rooms under other identifiers as they
    were. *)
Theorem call_user_creates_room_without_busy_guard
    (caller target : string) (cu tu : user_info) (data : dict pyval)
    (s : state) :
  py_get data "target_sid" = PStr target ->
  dict_get target (connected_users s) = Some tu ->
  dict_get caller (connected_users s) = Some cu ->
  caller <> target ->
  let r := handle_call_user caller data s in
  let room_id := room_id_of caller target in
  result_of r = inr tt /\
  dict_get room_id (active_rooms (state_of r)) = Some [caller; target] /\
  (forall k, k <> room_id ->
     dict_get k (active_rooms (state_of r)) = dict_get k (active_rooms s)) /\
  output_of r =
    [Emit "incoming_call"
       [("caller_sid", ostr caller); ("caller_name", ostr (u_name cu));
        ("room_id", ostr room_id)]
       (ToRoom target);
     Emit "call_initiated"
       [("target_sid", ostr target); ("target_name", ostr (u_name tu));
        ("room_id", ostr room_id)]
       ToSelf].
Proof.
  intros Hdata Ht Hc Hne.
  destruct (handle_call_user_spec caller target cu tu data s Hdata Ht Hc Hne)
    as [Hres [_ [Hrooms Hout]]].
  cbv zeta. rewrite Hrooms. repeat split; auto.
  - apply dict_get_set_same.
  - intros k Hk. now apply dict_get_set_other.
Qed.

Lemma call_user_creates_room_without_busy_guard_witness :
  let r := handle_call_user "A" [("target_sid", PStr "C")] ringing_state in
  rooms_of "A" ringing_state = ["call_A_B"] /\
  result_of r = inr tt /\
  dict_get "call_A_C" (active_rooms (state_of r)) = Some ["A"; "C"] /\
  (forall k, k <> "call_A_C" ->
     dict_get k (active_rooms (state_of r)) =
     dict_get k (active_rooms ringing_state)).
Proof.
  pose proof
    (call_user_creates_room_without_busy_guard "A" "C"
       (mkUser "Alice" "A" "t0") (mkUser "Carol" "C" "t2")
       [("target_sid", PStr "C")] ringing_state
       eq_refl eq_refl eq_refl ltac:(discriminate)) as H.
  cbv zeta in H. destruct H as [H1 [H2 [H3 _]]].
  split; [reflexivity|]. split; [exact H1|]. split; [exact H2|exact H3].
Defined.

(** ** One room per pair of connections *)

Lemma room_ok_key a b kv :
  room_ok kv -> a <> b -> room_has a b kv = true -> fst kv = room_id_of a b.
Proof.
  intros [c [t [Hu [Hne Hk]]]] Hab. unfold room_has, list_mem.
  rewrite Hu, Hk. simpl.
  destruct (String.eqb_spec a c), (String.eqb_spec a t),
           (String.eqb_spec b c), (String.eqb_spec b t);
    simpl; try discriminate; subst; try congruence.
  intros _. apply room_id_of_comm.
Qed.

Lemma filter_none {A} (f : A -> bool) (l : list A) :
  (forall x, In x l -> f x = false) -> filter f l = [].
Proof.
  induction l as [|x r IH]; simpl; intros H; [reflexivity|].
  rewrite (H x (or_introl eq_refl)). auto.
Qed.

Lemma filter_same_key_le1 {V} (f : string * V -> bool) (k : string)
    (d : dict V) :
  NoDup (dict_keys d) ->
  (forall kv, In kv d -> f kv = true -> fst kv = k) ->
  (length (filter f d) <= 1)%nat.
Proof.
  unfold dict_keys. induction d as [|kv r IH]; simpl; intros Hnd Hk; [lia|].
  inversion Hnd as [|? ? Hnotin Hnd']; subst.
  destruct (f kv) eqn:E; [|auto].
  rewrite filter_none; [simpl; lia|].
  intros x Hin. destruct (f x) eqn:Ex; [|reflexivity].
  exfalso. apply Hnotin.
  rewrite (Hk kv (or_introl eq_refl) E), <- (Hk x (or_intror Hin) Ex).
  now apply in_map.
Qed.

Lemma pair_rooms_le1 s a b :
  wf s -> a <> b -> (length (filter (room_has a b) (active_rooms s)) <= 1)%nat.
Proof.
  intros [_ Hnd Hok] Hab.
  apply filter_same_key_le1 with (k := room_id_of a b); [exact Hnd|].
  intros kv Hin Hf. rewrite Forall_forall in Hok.
  apply room_ok_key; auto.
Qed.

Lemma filter_In_length_pos {A} (f : A -> bool) (l : list A) x :
  In x l -> f x = true -> (1 <= length (filter f l))%nat.
Proof.
  intros Hin Hf. assert (H : In x (filter f l)) by (apply filter_In; auto).
  destruct (filter f l); [destruct H | simpl; lia].
Qed.

(** C10: in every reachable state [active_rooms] has at most one entry under
    the identifier of a given pair of connections, and at most one room
    holds the pair; and when the room of the pair exists already, a further
    [call_user] between the two, in either direction, leaves the keys of
    [active_rooms] as they were and overwrites the entry of the pair, so
    that there is still exactly one room for the pair. *)
Theorem one_room_per_pair (s : state) (a b : string) :
  reachable s -> a <> b ->
  (length (filter (fun kv => String.eqb (fst kv) (room_id_of a b))
             (active_rooms s)) <= 1)%nat /\
  (length (filter (room_has a b) (active_rooms s)) <= 1)%nat /\
  forall caller target cu tu data,
    (caller = a /\ target = b) \/ (caller = b /\ target = a) ->
    py_get data "target_sid" = PStr target ->
    dict_get target (connected_users s) = Some tu ->
    dict_get caller (connected_users s) = Some cu ->
    dict_mem (room_id_of a b) (active_rooms s) = true ->
    let r := handle_call_user caller data s in
    room_id_of caller target = room_id_of a b /\
    dict_keys (active_rooms (state_of r)) = dict_keys (active_rooms s) /\
    dict_get (room_id_of a b) (active_rooms (state_of r))
      = Some [caller; target] /\
    length (filter (room_has a b) (active_rooms (state_of r))) = 1%nat.
Proof.
  intros Hreach Hab. split; [|split].
  { apply filter_same_key_le1 with (k := room_id_of a b).
    - now apply reachable_wf.
    - intros kv _ H. now apply String.eqb_eq in H. }
  { apply pair_rooms_le1; [now apply reachable_wf | exact Hab]. }
  intros caller target cu tu data Hdir Hdata Ht Hc Hmem r.
  assert (Hne : caller <> target) by (destruct Hdir as [[-> ->]|[-> ->]]; auto).
  assert (Hid : room_id_of caller target = room_id_of a b).
  { destruct Hdir as [[-> ->]|[-> ->]]; [reflexivity | apply room_id_of_comm]. }
  destruct (handle_call_user_spec caller target cu tu data s Hdata Ht Hc Hne)
    as [_ [_ [Hrooms _]]].
  fold r in Hrooms. rewrite Hid in Hrooms.
  split; [exact Hid|]. rewrite Hrooms.
  split; [now apply dict_keys_set_present|].
  split; [apply dict_get_set_same|].
  apply Nat.le_antisymm.
  - rewrite <- Hrooms. apply pair_rooms_le1; [|exact Hab].
    apply reachable_wf. unfold r.
    exact (reach_step s caller (CallUser data) Hreach).
  - apply filter_In_length_pos with (x := (room_id_of a b, [caller; target])).
    + apply dict_get_In, dict_get_set_same.
    + unfold room_has, list_mem. simpl.
      destruct Hdir as [[-> ->]|[-> ->]];
        rewrite !String.eqb_refl; simpl; rewrite ?orb_true_r; reflexivity.
Qed.

Lemma one_room_per_pair_witness :
  let r := handle_call_user "B" [("target_sid", PStr "A")] ringing_state in
  dict_mem (room_id_of "A" "B") (active_rooms ringing_state) = true /\
  dict_keys (active_rooms (state_of r)) = dict_keys (active_rooms ringing_state) /\
  dict_get (room_id_of "A" "B") (active_rooms (state_of r)) = Some ["B"; "A"] /\
  length (filter (room_has "A" "B") (active_rooms (state_of r))) = 1%nat.
Proof.
  pose proof (one_room_per_pair ringing_state "A" "B" ringing_state_reachable
                ltac:(discriminate)) as [_ [_ H]].
  specialize (H "B" "A" (mkUser "Bob" "B" "t1") (mkUser "Alice" "A" "t0")
                [("target_sid", PStr "A")] (or_intror (conj eq_refl eq_refl))
                eq_refl eq_refl eq_refl eq_refl).
  cbv zeta in H. destruct H as [_ H]. split; [reflexivity | exact H].
Defined.

(** ** Cleaning up rooms *)

Lemma bind_eval {A B} (m : M A) (f : A -> M B) (s s1 : state) (a : A)
    (o1 : list emission) :
  m s = (inr a, s1, o1) ->
  bind m f s = (let '(r, s2, o2) := f a s1 in (r, s2, o1 ++ o2)).
Proof. intros H1. unfold bind. now rewrite H1. Qed.

Lemma bind_raised {A B} (m : M A) (f : A -> M B) (s s1 : state) (e : exn)
    (o1 : list emission) :
  m s = (inl e, s1, o1) -> bind m f s = (inl e, s1, o1).
Proof. intros H1. unfold bind. now rewrite H1. Qed.

Lemma try_ok {A} (m : M A) (h : exn -> M A) (s s1 : state) (a : A)
    (o1 : list emission) :
  m s = (inr a, s1, o1) -> try_except m h s = (inr a, s1, o1).
Proof. intros H1. unfold try_except. now rewrite H1. Qed.

Lemma try_raised {A} (m : M A) (h : exn -> M A) (s s1 : state) (e : exn)
    (o1 : list emission) :
  m s = (inl e, s1, o1) ->
  try_except m h s = (let '(r, s2, o2) := h e s1 in (r, s2, o1 ++ o2)).
Proof. intros H1. unfold try_except. now rewrite H1. Qed.

(** Run the first statement of a block when it evaluates by computation. *)
Ltac run_bind :=
  erewrite bind_eval by reflexivity; cbv beta iota.

Lemma for_each_leave_room room (l : list string) (s : state) :
  exists sio,
    for_each l (fun user_sid => leave_room room user_sid) s =
    (inr tt, mkState (connected_users s) (active_rooms s) sio, []).
Proof.
  revert s. induction l as [|x r IH]; intros s; simpl.
  - exists (sio_rooms s). now destruct s.
  - run_bind.
    match goal with |- context [for_each r _ ?s1] =>
      destruct (IH s1) as [sio ->] end.
    exists sio. reflexivity.
Qed.

Lemma cleanup_room_spec room_id users (s : state) :
  dict_get room_id (active_rooms s) = Some users ->
  exists sio,
    cleanup_room room_id s =
    (inr tt,
     mkState (connected_users s) (dict_del room_id (active_rooms s)) sio, []).
Proof.
  intros H. unfold cleanup_room.
  destruct (for_each_leave_room room_id users s) as [sio Hl].
  exists sio. run_bind. unfold dict_mem. rewrite H.
  erewrite bind_eval; cycle 1.
  { run_bind. unfold subscript. rewrite H. reflexivity. }
  erewrite bind_eval by exact Hl. reflexivity.
Qed.

Lemma cleanup_room_absent room_id (s : state) :
  dict_get room_id (active_rooms s) = None ->
  cleanup_room room_id s = (inr tt, s, []).
Proof.
  intros H. unfold cleanup_room. run_bind. unfold dict_mem. now rewrite H.
Qed.

Lemma for_each_notices sid (l : list string) (s : state) :
  for_each l (fun other_sid =>
    users <- gets connected_users ;;
    emit "call_ended"
      [("ender_name", ostr (name_or sid "Someone" users));
       ("reason", ostr "disconnected")]
      (ToRoom other_sid)) s =
  (inr tt, s,
   map (fun other_sid =>
          Emit "call_ended"
            [("ender_name", ostr (name_or sid "Someone" (connected_users s)));
             ("reason", ostr "disconnected")]
            (ToRoom other_sid)) l).
Proof.
  induction l as [|x r IH]; simpl; [reflexivity|].
  erewrite bind_eval by (run_bind; reflexivity). now rewrite IH.
Qed.

Lemma dict_get_del_all {V} (ks : list string) (d : dict V) k :
  dict_get k (dict_del_all ks d) =
  if list_mem k ks then None else dict_get k d.
Proof.
  unfold dict_del_all, list_mem. revert d.
  induction ks as [|k0 r IH]; intros d; simpl; [reflexivity|].
  rewrite IH. destruct (String.eqb_spec k k0) as [->|Hne]; simpl.
  - rewrite dict_get_del_same. now destruct (existsb _ r).
  - now rewrite dict_get_del_other.
Qed.

(** The loop of [cleanup_user_rooms] over the rooms [l] it selected. *)
Lemma cleanup_loop sid (l : dict (list string)) : forall s : state,
  NoDup (dict_keys l) ->
  (forall k u, In (k, u) l -> dict_get k (active_rooms s) = Some u) ->
  exists sio,
    for_each (map fst l) (fun room_id =>
      room_users <- (rooms <- gets active_rooms ;; subscript rooms room_id) ;;
      for_each (filter (fun u => negb (String.eqb u sid)) room_users)
        (fun other_sid =>
           users <- gets connected_users ;;
           emit "call_ended"
             [("ender_name", ostr (name_or sid "Someone" users));
              ("reason", ostr "disconnected")]
             (ToRoom other_sid)) ;;
      cleanup_room room_id) s =
    (inr tt,
     mkState (connected_users s) (dict_del_all (map fst l) (active_rooms s)) sio,
     flat_map (disconnect_notices sid (connected_users s)) l).
Proof.
  induction l as [|[k u] r IH]; intros s Hnd Hin.
  - exists (sio_rooms s). simpl. now destruct s.
  - cbn [map fst for_each flat_map].
    pose proof (Hin k u (or_introl eq_refl)) as Hk.
    destruct (cleanup_room_spec k u s Hk) as [sio1 Hc].
    inversion Hnd as [|? ? Hnotin Hnd']; subst.
    match type of Hc with _ = (_, ?s1, _) =>
      destruct (IH s1 Hnd') as [sio2 Hrest] end.
    { intros k' u' Hin'. cbn [active_rooms].
      rewrite dict_get_del_other; [apply Hin; now right|].
      intros ->. apply Hnotin. change k with (fst (k, u')).
      now apply in_map. }
    exists sio2.
    erewrite bind_eval; cycle 1.
    { erewrite bind_eval; cycle 1.
      { run_bind. unfold subscript. rewrite Hk. reflexivity. }
      cbv beta iota zeta.
      erewrite bind_eval by apply for_each_notices.
      rewrite Hc. reflexivity. }
    cbv beta. rewrite Hrest. cbn [connected_users active_rooms app].
    unfold disconnect_notices at 2. cbn [snd].
    rewrite !app_nil_r. reflexivity.
Qed.

Lemma cleanup_user_rooms_spec sid (s : state) :
  NoDup (dict_keys (active_rooms s)) ->
  exists sio,
    cleanup_user_rooms sid s =
    (inr tt,
     mkState (connected_users s)
       (dict_del_all (rooms_of sid s) (active_rooms s)) sio,
     flat_map (disconnect_notices sid (connected_users s))
       (filter (fun kv => list_mem sid (snd kv)) (active_rooms s))).
Proof.
  intros Hnd. unfold cleanup_user_rooms, rooms_of.
  destruct (cleanup_loop sid
              (filter (fun kv => list_mem sid (snd kv)) (active_rooms s)) s)
    as [sio Hloop].
  - now apply dict_keys_filter_NoDup.
  - intros k u Hin. apply filter_In in Hin. now apply In_dict_get.
  - exists sio. run_bind. cbv zeta. rewrite Hloop. reflexivity.
Qed.

(** ** Disconnecting *)

Lemma handle_disconnect_absent sid (s : state) :
  dict_mem sid (connected_users s) = false ->
  handle_disconnect sid s = (inr tt, s, []).
Proof.
  intros H. unfold handle_disconnect. run_bind. now rewrite H.
Qed.

Lemma handle_disconnect_spec sid u (s : state) :
  NoDup (dict_keys (active_rooms s)) ->
  dict_get sid (connected_users s) = Some u ->
  exists sio,
    handle_disconnect sid s =
    (inr tt,
     mkState (dict_del sid (connected_users s))
       (dict_del_all (rooms_of sid s) (active_rooms s)) sio,
     [Emit "user_left" [("name", ostr (u_name u)); ("sid", ostr sid)]
        (Broadcast false);
      Emit "user_list" (user_list_payload (dict_del sid (connected_users s)))
        (Broadcast true)]
     ++ flat_map (disconnect_notices sid (dict_del sid (connected_users s)))
          (filter (fun kv => list_mem sid (snd kv)) (active_rooms s))).
Proof.
  intros Hnd Hu.
  destruct (cleanup_user_rooms_spec sid
              (mkState (dict_del sid (connected_users s)) (active_rooms s)
                 (sio_rooms s)) Hnd) as [sio Hc].
  exists sio. unfold handle_disconnect. run_bind.
  unfold dict_mem. rewrite Hu.
  erewrite bind_eval; cycle 1.
  { run_bind. unfold subscript. rewrite Hu. reflexivity. }
  run_bind. run_bind. run_bind.
  unfold set_connected_users, modify. cbv beta iota.
  cbn [connected_users active_rooms sio_rooms].
  rewrite Hc. reflexivity.
Qed.

Section UsersOnly.
(** Properties of the registry alone are kept by everything that only
    touches the rooms. *)
Variable Q : dict user_info -> Prop.
Let P := fun s : state => Q (connected_users s).

Lemma cleanup_room_users room_id : preserves P (cleanup_room room_id).
Proof.
  unfold cleanup_room.
  repeat (preserves_step
          || (apply preserves_modify; intros s H; exact H)).
Qed.

Lemma cleanup_user_rooms_users sid : preserves P (cleanup_user_rooms sid).
Proof.
  unfold cleanup_user_rooms.
  repeat (preserves_step || apply cleanup_room_users).
Qed.
End UsersOnly.

Lemma state_of_bind {A B} (m : M A) (f : A -> M B) (s s1 : state) (a : A)
    (o1 : list emission) :
  m s = (inr a, s1, o1) -> state_of (bind m f s) = state_of (f a s1).
Proof.
  intros H. unfold bind, state_of. rewrite H.
  now destruct (f a s1) as [[r s2] o2].
Qed.

Lemma handle_disconnect_unregisters sid (s : state) :
  dict_mem sid (connected_users (state_of (handle_disconnect sid s))) = false.
Proof.
  destruct (dict_mem sid (connected_users s)) eqn:E.
  - unfold handle_disconnect.
    erewrite state_of_bind by reflexivity. cbv beta. rewrite E.
    unfold dict_mem in E.
    destruct (dict_get sid (connected_users s)) as [u|] eqn:Hu;
      [clear E | discriminate].
    erewrite state_of_bind; cycle 1.
    { run_bind. unfold subscript. rewrite Hu. reflexivity. }
    erewrite state_of_bind by reflexivity. cbv beta.
    apply (preserves_bind
             (fun st => dict_mem sid (connected_users st) = false)).
    + apply preserves_emit.
    + intros _. apply preserves_bind;
        [apply preserves_broadcast_user_list|].
      intros _.
      apply (cleanup_user_rooms_users (fun d => dict_mem sid d = false)).
    + cbn [connected_users]. apply dict_mem_del_same.
  - rewrite handle_disconnect_absent by exact E. exact E.
Qed.

(** C7: disconnecting is idempotent.  For every state and connection id, a
    second run of [handle_disconnect] right after the first returns normally,
    leaves the whole state as the first run left it and emits nothing; and
    a disconnect of a connection that is not registered returns normally
    with the state unchanged and nothing emitted. *)
Theorem disconnect_idempotent (sid : string) (s : state) :
  (let s1 := state_of (handle_disconnect sid s) in
   handle_disconnect sid s1 = (inr tt, s1, [])) /\
  (dict_mem sid (connected_users s) = false ->
   handle_disconnect sid s = (inr tt, s, [])).
Proof.
  split.
  - cbv zeta. apply handle_disconnect_absent, handle_disconnect_unregisters.
  - apply handle_disconnect_absent.
Qed.

Lemma disconnect_idempotent_witness :
  handle_disconnect "A" (state_of (handle_disconnect "A" ringing_state)) =
    (inr tt, state_of (handle_disconnect "A" ringing_state), []) /\
  handle_disconnect "Z" ringing_state = (inr tt, ringing_state, []).
Proof.
  destruct (disconnect_idempotent "A" ringing_state) as [H1 _].
  destruct (disconnect_idempotent "Z" ringing_state) as [_ H2].
  split; [exact H1 | exact (H2 eq_refl)].
Defined.

Lemma notices_to_other sid other users (rooms : dict (list string)) :
  Forall room_ok rooms -> other <> sid ->
  filter (call_ended_to other)
    (flat_map (disconnect_notices sid users)
       (filter (fun kv => list_mem sid (snd kv)) rooms)) =
  map (fun _ =>
         Emit "call_ended"
           [("ender_name", ostr (name_or sid "Someone" users));
            ("reason", ostr "disconnected")]
           (ToRoom other))
      (filter (room_has sid other) rooms).
Proof.
  intros Hok Hne. induction Hok as [|kv r Hkv _ IH]; [reflexivity|].
  destruct kv as [k us]. destruct Hkv as [c [t [Hus [Hct _]]]].
  simpl in Hus. subst us.
  unfold room_has, list_mem in *.
  cbn [filter snd existsb flat_map].
  rewrite (String.eqb_sym sid c), (String.eqb_sym sid t),
          (String.eqb_sym other c), (String.eqb_sym other t).
  destruct (String.eqb_spec c sid), (String.eqb_spec t sid),
           (String.eqb_spec c other), (String.eqb_spec t other);
    subst; try congruence;
    cbn [orb andb flat_map filter map app disconnect_notices snd negb];
    rewrite ?String.eqb_refl;
    repeat match goal with
           | H : ?x <> ?y |- context [String.eqb ?x ?y] =>
               rewrite (proj2 (String.eqb_neq x y) H)
           end;
    cbn [orb andb flat_map filter map app negb];
    unfold call_ended_to; cbn [ev_name ev_dest andb];
    rewrite ?filter_app, ?String.eqb_refl;
    repeat match goal with
           | H : ?x <> ?y |- context [String.eqb ?x ?y] =>
               rewrite (proj2 (String.eqb_neq x y) H)
           end;
    cbn [orb andb flat_map filter map app negb String.eqb];
    try (rewrite <- IH; unfold call_ended_to); try reflexivity.
Qed.

(** ** Accepting a call *)

Lemma accept_call_missing accepter room_id data (s : state) :
  py_get data "room_id" = PStr room_id ->
  dict_mem room_id (active_rooms s) = false ->
  handle_accept_call accepter data s = (inr tt, s, [call_error_missing]).
Proof.
  intros Hdata Hmem. unfold handle_accept_call. rewrite Hdata.
  apply try_ok. run_bind. unfold py_in. rewrite Hmem. run_bind. reflexivity.
Qed.

Lemma accept_call_found accepter room_id room_users other rest au data
    (s : state) :
  py_get data "room_id" = PStr room_id ->
  dict_get room_id (active_rooms s) = Some room_users ->
  filter (fun u => negb (String.eqb u accepter)) room_users = other :: rest ->
  dict_get accepter (connected_users s) = Some au ->
  handle_accept_call accepter data s =
  (inr tt, s,
   [Emit "call_accepted"
      [("accepter_sid", ostr accepter); ("accepter_name", ostr (u_name au));
       ("room_id", ostr room_id)]
      (ToRoom room_id)]).
Proof.
  intros Hdata Hroom Hother Hau. unfold handle_accept_call. rewrite Hdata.
  apply try_ok. run_bind. unfold py_in, dict_mem. rewrite Hroom. run_bind.
  erewrite bind_eval; cycle 1.
  { run_bind. unfold subscript. rewrite Hroom. reflexivity. }
  cbv beta iota. rewrite Hother. run_bind.
  erewrite bind_eval; cycle 1.
  { run_bind. unfold subscript. rewrite Hau. reflexivity. }
  reflexivity.
Qed.

Lemma accept_call_unregistered accepter room_id room_users other rest data
    (s : state) :
  py_get data "room_id" = PStr room_id ->
  dict_get room_id (active_rooms s) = Some room_users ->
  filter (fun u => negb (String.eqb u accepter)) room_users = other :: rest ->
  dict_get accepter (connected_users s) = None ->
  handle_accept_call accepter data s =
  (inr tt, s, [Emit "call_error" [("error", OErr (KeyError accepter))] ToSelf]).
Proof.
  intros Hdata Hroom Hother Hau. unfold handle_accept_call. rewrite Hdata.
  erewrite try_raised; cycle 1.
  { run_bind. unfold py_in, dict_mem. rewrite Hroom. run_bind.
    erewrite bind_eval; cycle 1.
    { run_bind. unfold subscript. rewrite Hroom. reflexivity. }
    cbv beta iota. rewrite Hother. run_bind.
    erewrite bind_raised; [reflexivity|].
    run_bind. unfold subscript. rewrite Hau. reflexivity. }
  reflexivity.
Qed.

(** In a well-formed room somebody other than [sid] is always found. *)
Lemma room_ok_other sid kv :
  room_ok kv ->
  exists other rest,
    filter (fun u => negb (String.eqb u sid)) (snd kv) = other :: rest.
Proof.
  intros [c [t [-> [Hne _]]]]. simpl.
  destruct (String.eqb_spec c sid), (String.eqb_spec t sid);
    subst; simpl; eauto. congruence.
Qed.

Lemma list_mem_In x l : list_mem x l = true <-> In x l.
Proof.
  unfold list_mem. rewrite existsb_exists. split.
  - intros [y [Hin Heq]]. apply String.eqb_eq in Heq. now subst.
  - intros Hin. exists x. split; [exact Hin | apply String.eqb_refl].
Qed.

Lemma run_accepts_missing room_id data (accepters : list string) (s : state) :
  py_get data "room_id" = PStr room_id ->
  dict_mem room_id (active_rooms s) = false ->
  run (map (fun a => (a, AcceptCall data)) accepters) s =
  (s, map (fun _ => call_error_missing) accepters).
Proof.
  intros Hdata Hmem. induction accepters as [|a r IH]; [reflexivity|].
  cbn [map run handle].
  rewrite (accept_call_missing a room_id data s Hdata Hmem).
  unfold state_of, output_of. cbn [fst snd]. now rewrite IH.
Qed.

(** C4, as stated, fails: [handle_accept_call] never checks that the accepter
    is in the room.  Carol is registered but is not a participant of the room
    of Alice and Bob; her [accept_call] for it is answered with
    [call_accepted] to the room, and the table is as before. *)
Lemma accept_call_outsider_counterexample :
  let r := handle_accept_call "C" [("room_id", PStr "call_A_B")] ringing_state in
  dict_get "call_A_B" (active_rooms ringing_state) = Some ["A"; "B"] /\
  list_mem "C" ["A"; "B"] = false /\
  output_of r =
    [Emit "call_accepted"
       [("accepter_sid", ostr "C"); ("accepter_name", ostr "Carol");
        ("room_id", ostr "call_A_B")]
       (ToRoom "call_A_B")] /\
  state_of r = ringing_state.
Proof. repeat split. Qed.

(** C4, amended: [handle_accept_call] emits [call_accepted] to the room of
    the session if and only if the session exists and the accepter is a
    registered connection, participant of the session or not; when the
    session does not exist the accepter gets the [call_error] "Call no longer
    exists"; in every case the handler returns normally and leaves the state
    (which records no ringing or active status) unchanged. *)
Theorem accept_call_spec (s : state) (accepter room_id : string)
    (data : dict pyval) :
  reachable s ->
  py_get data "room_id" = PStr room_id ->
  let r := handle_accept_call accepter data s in
  result_of r = inr tt /\ state_of r = s /\
  (dict_mem room_id (active_rooms s) = false ->
   output_of r = [call_error_missing]) /\
  (forall au,
     dict_mem room_id (active_rooms s) = true ->
     dict_get accepter (connected_users s) = Some au ->
     output_of r =
       [Emit "call_accepted"
          [("accepter_sid", ostr accepter); ("accepter_name", ostr (u_name au));
           ("room_id", ostr room_id)]
          (ToRoom room_id)]) /\
  ((exists e, In e (output_of r) /\ ev_name e = "call_accepted") <->
   dict_mem room_id (active_rooms s) = true /\
   dict_mem accepter (connected_users s) = true).
Proof.
  intros Hreach Hdata r. apply reachable_wf in Hreach.
  destruct Hreach as [_ Hnd Hok].
  destruct (dict_get room_id (active_rooms s)) as [room_users|] eqn:Hroom.
  - assert (Hmem : dict_mem room_id (active_rooms s) = true)
      by (unfold dict_mem; now rewrite Hroom).
    rewrite Forall_forall in Hok.
    destruct (room_ok_other accepter _ (Hok _ (dict_get_In _ _ _ Hroom)))
      as [other [rest Hother]]. cbn [snd] in Hother.
    destruct (dict_get accepter (connected_users s)) as [au|] eqn:Hau.
    + pose proof (accept_call_found accepter room_id room_users other rest au
                    data s Hdata Hroom Hother Hau) as Hr.
      fold r in Hr. rewrite Hr. unfold result_of, state_of, output_of.
      cbn [fst snd].
      split; [reflexivity|]. split; [reflexivity|].
      split; [congruence|]. split; [intros au' _ [= <-]; reflexivity|].
      split.
      * intros _. split; [exact Hmem|]. unfold dict_mem. now rewrite Hau.
      * intros _. eexists. split; [left; reflexivity | reflexivity].
    + pose proof (accept_call_unregistered accepter room_id room_users other
                    rest data s Hdata Hroom Hother Hau) as Hr.
      fold r in Hr. rewrite Hr. unfold result_of, state_of, output_of.
      cbn [fst snd].
      split; [reflexivity|]. split; [reflexivity|].
      split; [congruence|]. split; [intros au' _ [=]|].
      split.
      * intros [e [[<-|[]] He]]. discriminate.
      * intros [_ H]. unfold dict_mem in H. rewrite Hau in H. discriminate.
  - assert (Hmem : dict_mem room_id (active_rooms s) = false)
      by (unfold dict_mem; now rewrite Hroom).
    pose proof (accept_call_missing accepter room_id data s Hdata Hmem) as Hr.
    fold r in Hr. rewrite Hr. unfold result_of, state_of, output_of.
    cbn [fst snd].
    split; [reflexivity|]. split; [reflexivity|].
    split; [reflexivity|]. split; [congruence|].
    split.
    + intros [e [[<-|[]] He]]. discriminate.
    + intros [H _]. congruence.
Qed.

Lemma accept_call_spec_witness :
  let r := handle_accept_call "C" [("room_id", PStr "call_A_B")] ringing_state in
  result_of r = inr tt /\ state_of r = ringing_state /\
  ((exists e, In e (output_of r) /\ ev_name e = "call_accepted") <->
   dict_mem "call_A_B" (active_rooms ringing_state) = true /\
   dict_mem "C" (connected_users ringing_state) = true).
Proof.
  pose proof (accept_call_spec ringing_state "C" "call_A_B"
                [("room_id", PStr "call_A_B")] ringing_state_reachable eq_refl)
    as H.
  cbv zeta in H. destruct H as [H1 [H2 [_ [_ H3]]]].
  split; [exact H1|]. split; [exact H2 | exact H3].
Defined.

(** ** A participant disconnects *)

(** C6: when a registered participant [sid] of a room disconnects, the other
    participant is sent exactly one [call_ended] event, with reason
    "disconnected"; the room is gone from [active_rooms]; and every
    [accept_call] for that room identifier that follows, by whomever, is
    answered with the [call_error] "Call no longer exists" and changes
    nothing. *)
Theorem disconnect_ends_call (s : state) (sid other room_id : string)
    (room_users : list string) :
  reachable s ->
  dict_mem sid (connected_users s) = true ->
  dict_get room_id (active_rooms s) = Some room_users ->
  list_mem sid room_users = true ->
  list_mem other room_users = true ->
  other <> sid ->
  let r := handle_disconnect sid s in
  result_of r = inr tt /\
  filter (call_ended_to other) (output_of r) =
    [Emit "call_ended"
       [("ender_name", ostr "Someone"); ("reason", ostr "disconnected")]
       (ToRoom other)] /\
  dict_mem room_id (active_rooms (state_of r)) = false /\
  forall (accepters : list string) (data : dict pyval),
    py_get data "room_id" = PStr room_id ->
    run (map (fun a => (a, AcceptCall data)) accepters) (state_of r) =
    (state_of r, map (fun _ => call_error_missing) accepters).
Proof.
  intros Hreach Hreg Hroom Hsid Hother Hne r.
  pose proof (reachable_wf s Hreach) as [Husers Hnd Hok].
  unfold dict_mem in Hreg.
  destruct (dict_get sid (connected_users s)) as [u|] eqn:Hu;
    [clear Hreg | discriminate].
  destruct (handle_disconnect_spec sid u s Hnd Hu) as [sio Hr].
  fold r in Hr. rewrite Hr. unfold result_of, state_of, output_of.
  cbn [fst snd].
  assert (Hgone :
    dict_mem room_id (dict_del_all (rooms_of sid s) (active_rooms s)) = false).
  { unfold dict_mem. rewrite dict_get_del_all.
    replace (list_mem room_id (rooms_of sid s)) with true; [reflexivity|].
    symmetry. apply list_mem_In. unfold rooms_of.
    change room_id with (fst (room_id, room_users)). apply in_map.
    apply filter_In. split; [now apply dict_get_In | exact Hsid]. }
  split; [reflexivity|]. split; [|split; [exact Hgone|]].
  - cbn [app filter call_ended_to ev_name ev_dest String.eqb Ascii.eqb
         Bool.eqb andb].
    rewrite notices_to_other by auto.
    unfold name_or. rewrite dict_get_del_same.
    assert (Hlen : length (filter (room_has sid other) (active_rooms s)) = 1%nat).
    { apply Nat.le_antisymm.
      - apply pair_rooms_le1; [now constructor | congruence].
      - apply filter_In_length_pos with (x := (room_id, room_users)).
        + now apply dict_get_In.
        + unfold room_has. cbn [snd]. now rewrite Hsid, Hother. }
    destruct (filter (room_has sid other) (active_rooms s)) as [|x [|y l]];
      simpl in Hlen; try discriminate. reflexivity.
  - intros accepters data Hdata.
    now apply run_accepts_missing with (room_id := room_id).
Qed.

Lemma disconnect_ends_call_witness :
  let r := handle_disconnect "B" ringing_state in
  result_of r = inr tt /\
  filter (call_ended_to "A") (output_of r) =
    [Emit "call_ended"
       [("ender_name", ostr "Someone"); ("reason", ostr "disconnected")]
       (ToRoom "A")] /\
  dict_mem "call_A_B" (active_rooms (state_of r)) = false /\
  forall (accepters : list string) (data : dict pyval),
    py_get data "room_id" = PStr "call_A_B" ->
    run (map (fun a => (a, AcceptCall data)) accepters) (state_of r) =
    (state_of r, map (fun _ => call_error_missing) accepters).
Proof.
  exact (disconnect_ends_call ringing_state "B" "A" "call_A_B" ["A"; "B"]
           ringing_state_reachable eq_refl eq_refl eq_refl eq_refl
           ltac:(discriminate)).
Defined.

(** ** Relaying offers, answers and candidates *)

Lemma truthy_and_in_registered {V} (t : string) (d : dict V) (s : state) :
  t <> "" -> dict_mem t d = true ->
  truthy_and_in (PStr t) d s = (inr (Some t), s, []).
Proof.
  intros Hne Hmem. unfold truthy_and_in, py_truthy, py_in.
  apply String.eqb_neq in Hne. rewrite Hne, Hmem. reflexivity.
Qed.

(** A target that is not a registered connection id is never found, or the
    test raises. *)
Lemma truthy_and_in_unregistered {V} (v : pyval) (d : dict V) (s : state) :
  (forall t, v = PStr t -> dict_mem t d = false) ->
  truthy_and_in v d s = (inr None, s, []) \/
  exists e, truthy_and_in v d s = (inl e, s, []).
Proof.
  intros H. unfold truthy_and_in, py_in.
  destruct (py_truthy v); [|now left].
  destruct v as [| | |t| |];
    try (now left); try (right; eexists; reflexivity).
  rewrite (H t eq_refl). now left.
Qed.

(** C5, as stated, fails: only [handle_offer] adds the sender's display name.
    Bob, registered, sends an answer and a candidate to the registered Alice;
    each event reaches Alice's room with the payload and Bob's connection id
    and without any [sender_name] field. *)
Lemma relay_without_name_counterexample :
  let answer := [("target_sid", PStr "A"); ("answer", PStr "sdp")] in
  let candidate := [("target_sid", PStr "A"); ("candidate", PStr "ice")] in
  dict_mem "A" (connected_users ringing_state) = true /\
  dict_get "B" (connected_users ringing_state) = Some (mkUser "Bob" "B" "t1") /\
  output_of (handle_answer "B" answer ringing_state) =
    [Emit "answer" [("answer", OVal (PStr "sdp")); ("sender_sid", ostr "B")]
       (ToRoom "A")] /\
  output_of (handle_ice_candidate "B" candidate ringing_state) =
    [Emit "ice_candidate"
       [("candidate", OVal (PStr "ice")); ("sender_sid", ostr "B")]
       (ToRoom "A")] /\
  (forall e,
     In e (output_of (handle_answer "B" answer ringing_state) ++
           output_of (handle_ice_candidate "B" candidate ringing_state)) ->
     dict_get "sender_name" (ev_payload e) = None).
Proof.
  cbv zeta. repeat split.
  intros e [<-|[<-|[]]]; reflexivity.
Qed.

(** C5, amended: for an offer, an answer or a candidate whose target is a
    registered, non-empty connection id, the handler emits exactly one event,
    addressed to the target only, with the payload as received and the
    sender's connection id; the offer alone also carries the sender's display
    name, read from the registry entry of the (registered) sender; answers
    and candidates carry no name.  When the target is not a registered
    connection id, the three handlers emit nothing.  The state is never
    changed. *)
Theorem relay_spec (s : state) (sender : string) (data : dict pyval) :
  (forall t,
     py_get data "target_sid" = PStr t -> t <> "" ->
     dict_mem t (connected_users s) = true ->
     handle_answer sender data s =
       (inr tt, s,
        [Emit "answer"
           [("answer", OVal (py_get data "answer")); ("sender_sid", ostr sender)]
           (ToRoom t)]) /\
     handle_ice_candidate sender data s =
       (inr tt, s,
        [Emit "ice_candidate"
           [("candidate", OVal (py_get data "candidate"));
            ("sender_sid", ostr sender)]
           (ToRoom t)]) /\
     (forall su,
        dict_get sender (connected_users s) = Some su ->
        handle_offer sender data s =
          (inr tt, s,
           [Emit "offer"
              [("offer", OVal (py_get data "offer")); ("sender_sid", ostr sender);
               ("sender_name", ostr (u_name su))]
              (ToRoom t)]))) /\
  ((forall t, py_get data "target_sid" = PStr t ->
              dict_mem t (connected_users s) = false) ->
   handle_offer sender data s = (inr tt, s, []) /\
   handle_answer sender data s = (inr tt, s, []) /\
   handle_ice_candidate sender data s = (inr tt, s, [])).
Proof.
  split.
  - intros t Hdata Hne Hmem.
    pose proof (truthy_and_in_registered t (connected_users s) s Hne Hmem)
      as Hin.
    split; [|split].
    + unfold handle_answer. rewrite Hdata. apply try_ok. run_bind.
      erewrite bind_eval by exact Hin. reflexivity.
    + unfold handle_ice_candidate. rewrite Hdata. apply try_ok. run_bind.
      erewrite bind_eval by exact Hin. reflexivity.
    + intros su Hsu. unfold handle_offer. rewrite Hdata. apply try_ok.
      run_bind. erewrite bind_eval by exact Hin. cbv beta iota.
      erewrite bind_eval; cycle 1.
      { run_bind. unfold subscript. rewrite Hsu. reflexivity. }
      reflexivity.
  - intros Hun.
    destruct (truthy_and_in_unregistered (py_get data "target_sid")
                (connected_users s) s Hun) as [Hin|[e Hin]].
    + split; [|split].
      * unfold handle_offer. apply try_ok. run_bind.
        erewrite bind_eval by exact Hin. reflexivity.
      * unfold handle_answer. apply try_ok. run_bind.
        erewrite bind_eval by exact Hin. reflexivity.
      * unfold handle_ice_candidate. apply try_ok. run_bind.
        erewrite bind_eval by exact Hin. reflexivity.
    + split; [|split].
      * unfold handle_offer. erewrite try_raised; cycle 1.
        { run_bind. erewrite bind_raised by exact Hin. reflexivity. }
        reflexivity.
      * unfold handle_answer. erewrite try_raised; cycle 1.
        { run_bind. erewrite bind_raised by exact Hin. reflexivity. }
        reflexivity.
      * unfold handle_ice_candidate. erewrite try_raised; cycle 1.
        { run_bind. erewrite bind_raised by exact Hin. reflexivity. }
        reflexivity.
Qed.

Lemma relay_spec_witness :
  handle_offer "B" [("target_sid", PStr "A"); ("offer", PStr "sdp")]
    ringing_state =
    (inr tt, ringing_state,
     [Emit "offer"
        [("offer", OVal (PStr "sdp")); ("sender_sid", ostr "B");
         ("sender_name", ostr "Bob")]
        (ToRoom "A")]) /\
  handle_answer "B" [("target_sid", PStr "Z"); ("answer", PStr "sdp")]
    ringing_state = (inr tt, ringing_state, []).
Proof.
  destruct (relay_spec ringing_state "B"
              [("target_sid", PStr "A"); ("offer", PStr "sdp")]) as [H1 _].
  destruct (H1 "A" eq_refl ltac:(discriminate) eq_refl) as [_ [_ H]].
  destruct (relay_spec ringing_state "B"
              [("target_sid", PStr "Z"); ("answer", PStr "sdp")]) as [_ H2].
  split.
  - exact (H (mkUser "Bob" "B" "t1") eq_refl).
  - apply H2. intros t [= <-]. reflexivity.
Defined.

(** ** Failed calls *)

(** The guards of [handle_call_user]: a target that is not a registered
    connection id, or is the caller, ends in a [call_error] to the caller and
    the state is unchanged. *)
Lemma call_user_guard_failure caller (data : dict pyval) (s : state) :
  (forall t, py_get data "target_sid" = PStr t ->
             dict_mem t (connected_users s) = false \/ t = caller) ->
  exists err,
    handle_call_user caller data s =
    (inr tt, s, [Emit "call_error" [("error", err)] ToSelf]).
Proof.
  intros H. unfold handle_call_user.
  destruct (py_get data "target_sid") as [| | |t| |] eqn:Hdata.
  1-3: eexists; apply try_ok; run_bind; run_bind; reflexivity.
  - destruct (dict_mem t (connected_users s)) eqn:Hmem.
    + destruct (H t eq_refl) as [Hf| ->]; [congruence|].
      eexists. apply try_ok. run_bind. unfold py_in. rewrite Hmem. run_bind.
      rewrite String.eqb_refl. reflexivity.
    + eexists. apply try_ok. run_bind. unfold py_in. rewrite Hmem. run_bind.
      reflexivity.
  - eexists. erewrite try_raised; cycle 1.
    { run_bind. erewrite bind_raised by reflexivity. reflexivity. }
    reflexivity.
  - eexists. erewrite try_raised; cycle 1.
    { run_bind. erewrite bind_raised by reflexivity. reflexivity. }
    reflexivity.
Qed.

(** C2 does not hold of the code: a connection that never registered calls
    the registered Bob.  The room is entered into [active_rooms] before the
    caller's name is looked up; the lookup raises [KeyError], the handler
    answers with a [call_error], and the room stays in the table. *)
Theorem call_user_error_leaves_room :
  let r := handle_call_user "A" [("target_sid", PStr "B")] bob_only in
  reachable bob_only /\
  dict_mem "A" (connected_users bob_only) = false /\
  active_rooms bob_only = [] /\
  result_of r = inr tt /\
  output_of r = [Emit "call_error" [("error", OErr (KeyError "A"))] ToSelf] /\
  active_rooms (state_of r) = [("call_A_B", ["A"; "B"])].
Proof.
  cbv zeta. split; [|repeat split].
  apply run_reachable, reach_init.
Qed.

(** ** Chat messages *)

(** A private message to a registered target: one event to the target and an
    echo to the sender labelled with the target's name; nothing is
    broadcast. *)
Lemma send_message_private sender target tu text (data : dict pyval)
    (s : state) :
  py_get data "target_sid" = PStr target -> target <> "" ->
  dict_get target (connected_users s) = Some tu ->
  dict_get "message" data = Some (PStr text) ->
  strip text <> "" -> (String.length (strip text) <= 1000)%nat ->
  handle_send_message sender data s =
  (inr tt, s,
   [Emit "receive_message"
      [("sender_sid", ostr sender);
       ("sender_name", ostr (name_or sender "Anonymous" (connected_users s)));
       ("message", ostr (strip text)); ("private", obool true)]
      (ToRoom target);
    Emit "receive_message"
      [("sender_sid", ostr sender);
       ("sender_name",
        ostr (name_or sender "Anonymous" (connected_users s)
              ++ " (to " ++ u_name tu ++ ")"));
       ("message", ostr (strip text)); ("private", obool true)]
      (ToRoom sender)]).
Proof.
  intros Hdata Hne Ht Hmsg Hnonempty Hlen.
  assert (Hmem : dict_mem target (connected_users s) = true)
    by (unfold dict_mem; now rewrite Ht).
  unfold handle_send_message, py_get_default. rewrite Hdata, Hmsg.
  apply try_ok. run_bind.
  apply String.eqb_neq in Hnonempty. rewrite Hnonempty.
  apply Nat.ltb_ge in Hlen. rewrite Hlen. cbn [orb].
  run_bind.
  erewrite bind_eval by (apply truthy_and_in_registered; assumption).
  cbv beta iota. run_bind.
  erewrite bind_eval; cycle 1.
  { run_bind. unfold subscript. rewrite Ht. reflexivity. }
  reflexivity.
Qed.

(** A message without a target is broadcast. *)
Lemma send_message_public sender text (data : dict pyval) (s : state) :
  py_get data "target_sid" = PNone ->
  dict_get "message" data = Some (PStr text) ->
  strip text <> "" -> (String.length (strip text) <= 1000)%nat ->
  handle_send_message sender data s =
  (inr tt, s,
   [Emit "receive_message"
      [("sender_sid", ostr sender);
       ("sender_name", ostr (name_or sender "Anonymous" (connected_users s)));
       ("message", ostr (strip text)); ("private", obool false)]
      (Broadcast true)]).
Proof.
  intros Hdata Hmsg Hnonempty Hlen.
  unfold handle_send_message, py_get_default. rewrite Hdata, Hmsg.
  apply try_ok. run_bind.
  apply String.eqb_neq in Hnonempty. rewrite Hnonempty.
  apply Nat.ltb_ge in Hlen. rewrite Hlen. cbn [orb].
  run_bind. run_bind. reflexivity.
Qed.

(** C3 does not hold of the code: Alice sends a message with a target that is
    not registered.  The handler falls into the branch for messages without
    a target and broadcasts the text as a public message, instead of dropping
    it. *)
Theorem send_message_offline_target_broadcast :
  let data := [("target_sid", PStr "B"); ("message", PStr "hi")] in
  let r := handle_send_message "A" data alice_only in
  reachable alice_only /\
  dict_mem "B" (connected_users alice_only) = false /\
  result_of r = inr tt /\
  output_of r =
    [Emit "receive_message"
       [("sender_sid", ostr "A"); ("sender_name", ostr "Alice");
        ("message", ostr "hi"); ("private", obool false)]
       (Broadcast true)].
Proof.
  cbv zeta. split; [|repeat split].
  apply run_reachable, reach_init.
Qed.

(** * Further properties of the handlers *)

(** ** Registration: outcome, failure and the names it keeps *)

Lemma handle_register_eval sid now p (data : dict pyval) (s : state) :
  py_get_default data "name" (PStr "Anonymous") = PStr p ->
  handle_register sid now data s =
  (inr tt,
   mkState
     (dict_set sid (mkUser (display_name_of p) sid now) (connected_users s))
     (active_rooms s) (sio_rooms s),
   [Emit "registered"
      [("success", obool true); ("name", ostr (display_name_of p));
       ("sid", ostr sid)] ToSelf;
    Emit "user_joined" [("name", ostr (display_name_of p)); ("sid", ostr sid)]
      (Broadcast false);
    Emit "user_list"
      (user_list_payload
         (dict_set sid (mkUser (display_name_of p) sid now) (connected_users s)))
      (Broadcast true)]).
Proof.
  intros H. unfold handle_register. rewrite H. apply try_ok.
  erewrite bind_eval by reflexivity. cbv beta iota zeta.
  fold (display_name_of p). run_bind. run_bind. run_bind. reflexivity.
Qed.

Lemma handle_register_eval_bad sid now v (data : dict pyval) (s : state) :
  py_get_default data "name" (PStr "Anonymous") = v ->
  (forall p, v <> PStr p) ->
  handle_register sid now data s =
  (inr tt, s,
   [Emit "registered"
      [("success", obool false); ("error", OErr (AttributeError v "strip"))]
      ToSelf]).
Proof.
  intros H Hv. unfold handle_register. rewrite H.
  erewrite try_raised; cycle 1.
  { apply bind_raised. destruct v as [| | |p| |]; try reflexivity.
    now destruct (Hv p). }
  reflexivity.
Qed.

Lemma display_name_of_ok p :
  (1 <= String.length (display_name_of p) <= 30)%nat /\
  no_outer_space (display_name_of p).
Proof.
  unfold display_name_of.
  destruct (strip_trimmed p) as [l [r [_ [_ [_ Hno]]]]].
  rewrite eqb_empty_length.
  destruct (Nat.eqb_spec (String.length (strip p)) 0) as [E|E]; simpl.
  - split; [simpl; lia|].
    destruct (strip_trimmed "Anonymous") as [l' [r' [_ [_ [_ H]]]]]. exact H.
  - destruct (Nat.ltb_spec 30 (String.length (strip p))).
    + split; [simpl; lia|].
      destruct (strip_trimmed "Anonymous") as [l' [r' [_ [_ [_ H']]]]].
      exact H'.
    + split; [lia | exact Hno].
Qed.

Lemma strip_fixed t : no_outer_space t -> strip t = t.
Proof.
  intros H. apply strip_unique. exists "", "". simpl.
  rewrite append_empty_r. auto.
Qed.

(** The name kept at registration is always a valid display name (1 to 30
    characters, no whitespace at either end), and proposing a kept name
    again keeps it as it is. *)
Theorem display_name_of_stable (p : string) :
  (1 <= String.length (display_name_of p) <= 30)%nat /\
  no_outer_space (display_name_of p) /\
  display_name_of (display_name_of p) = display_name_of p.
Proof.
  destruct (display_name_of_ok p) as [Hlen Hno].
  split; [exact Hlen|]. split; [exact Hno|].
  unfold display_name_of at 1. rewrite (strip_fixed _ Hno).
  rewrite eqb_empty_length.
  destruct (Nat.eqb_spec (String.length (display_name_of p)) 0); [lia|].
  destruct (Nat.ltb_spec 30 (String.length (display_name_of p))); [lia|].
  reflexivity.
Qed.

(** A successful [register] (the name is a string, or is absent and taken to
    be "Anonymous") writes the entry of the connection, confirms to the
    registrant, announces the newcomer to everybody else and then sends
    everybody the user list of the updated registry, in this order; the
    rooms are not touched. *)
Theorem register_announces (sid now p : string) (data : dict pyval)
    (s : state) :
  py_get_default data "name" (PStr "Anonymous") = PStr p ->
  let r := handle_register sid now data s in
  let users' :=
    dict_set sid (mkUser (display_name_of p) sid now) (connected_users s) in
  result_of r = inr tt /\
  connected_users (state_of r) = users' /\
  active_rooms (state_of r) = active_rooms s /\
  output_of r =
    [Emit "registered"
       [("success", obool true); ("name", ostr (display_name_of p));
        ("sid", ostr sid)] ToSelf;
     Emit "user_joined" [("name", ostr (display_name_of p)); ("sid", ostr sid)]
       (Broadcast false);
     Emit "user_list" (user_list_payload users') (Broadcast true)].
Proof.
  intros H. cbv zeta. rewrite (handle_register_eval sid now p data s H).
  repeat split.
Qed.

Lemma register_announces_witness :
  output_of
    (handle_register "C" "t2" [("name", PStr " Carol")]
       (mkState [("A", mkUser "Alice" "A" "t0")] [] [])) =
    [Emit "registered"
       [("success", obool true); ("name", ostr "Carol"); ("sid", ostr "C")]
       ToSelf;
     Emit "user_joined" [("name", ostr "Carol"); ("sid", ostr "C")]
       (Broadcast false);
     Emit "user_list"
       [("users",
         OVal (PList [PDict [("name", PStr "Alice"); ("sid", PStr "A")];
                      PDict [("name", PStr "Carol"); ("sid", PStr "C")]]))]
       (Broadcast true)].
Proof.
  exact (proj2 (proj2 (proj2
    (register_announces "C" "t2" " Carol" [("name", PStr " Carol")]
       (mkState [("A", mkUser "Alice" "A" "t0")] [] []) eq_refl)))).
Defined.

(** [register] without a [name] field registers the connection as
    "Anonymous". *)
Theorem register_without_name (sid now : string) (data : dict pyval)
    (s : state) :
  dict_get "name" data = None ->
  let r := handle_register sid now data s in
  dict_get sid (connected_users (state_of r)) =
    Some (mkUser "Anonymous" sid now) /\
  In (Emit "registered"
        [("success", obool true); ("name", ostr "Anonymous"); ("sid", ostr sid)]
        ToSelf) (output_of r).
Proof.
  intros H. cbv zeta.
  rewrite (handle_register_eval sid now "Anonymous" data s)
    by (unfold py_get_default; now rewrite H).
  unfold state_of, output_of. cbn [fst snd connected_users].
  split; [apply dict_get_set_same | now left].
Qed.

Lemma register_without_name_witness :
  dict_get "A" (connected_users
                  (state_of (handle_register "A" "t0" [] initial_state))) =
    Some (mkUser "Anonymous" "A" "t0").
Proof.
  exact (proj1 (register_without_name "A" "t0" [] initial_state eq_refl)).
Defined.

(** [register] with a [name] that is not a string (null, a number, a list,
    ...) registers nothing: the state is unchanged and the only event is a
    [registered] with [success] false, to the sender. *)
Theorem register_rejects_non_string_name (sid now : string) (v : pyval)
    (data : dict pyval) (s : state) :
  dict_get "name" data = Some v ->
  (forall p, v <> PStr p) ->
  handle_register sid now data s =
  (inr tt, s,
   [Emit "registered"
      [("success", obool false); ("error", OErr (AttributeError v "strip"))]
      ToSelf]).
Proof.
  intros H Hv. apply handle_register_eval_bad; [|exact Hv].
  unfold py_get_default. now rewrite H.
Qed.

Lemma register_rejects_non_string_name_witness :
  handle_register "A" "t0" [("name", PNone)] ringing_state =
  (inr tt, ringing_state,
   [Emit "registered"
      [("success", obool false);
       ("error", OErr (AttributeError PNone "strip"))]
      ToSelf]).
Proof.
  exact (register_rejects_non_string_name "A" "t0" PNone [("name", PNone)]
           ringing_state eq_refl ltac:(intros p; discriminate)).
Defined.

(** ** What a handler does to the registry *)

Section RegistryProps.
(** A property [Q] of the registry that survives the two updates the
    connection [sid] can cause is kept by every handler run for [sid]. *)
Variable Q : dict user_info -> Prop.
Variable sid : string.
Hypothesis Q_del : forall d, Q d -> Q (dict_del sid d).
Hypothesis Q_set :
  forall p now d, Q d -> Q (dict_set sid (mkUser (display_name_of p) sid now) d).

Lemma handle_register_registry now data :
  preserves (fun s => Q (connected_users s)) (handle_register sid now data).
Proof.
  intros s H.
  destruct (py_get_default data "name" (PStr "Anonymous")) as [| | |p| |] eqn:E.
  4: { rewrite (handle_register_eval sid now p data s E). now apply Q_set. }
  all: erewrite handle_register_eval_bad by (try exact E; discriminate);
    exact H.
Qed.

Lemma handle_registry_prop ev :
  preserves (fun s => Q (connected_users s)) (handle sid ev).
Proof.
  destruct ev; cbn [handle];
    try solve
      [ apply handle_connect_preserves | apply handle_get_users_preserves
      | apply handle_accept_call_preserves | apply handle_offer_preserves
      | apply handle_answer_preserves | apply handle_ice_candidate_preserves
      | apply handle_send_message_preserves
      | apply handle_register_registry ].
  - unfold handle_disconnect.
    repeat (preserves_step
            || apply (cleanup_user_rooms_users Q)
            || (apply preserves_modify; intros st Hst; now apply Q_del)).
  - unfold handle_call_user.
    repeat (preserves_step
            || (apply preserves_modify; intros st Hst; exact Hst)).
  - unfold handle_reject_call.
    repeat (preserves_step || apply (cleanup_room_users Q)).
  - unfold handle_end_call.
    repeat (preserves_step || apply (cleanup_room_users Q)).
Qed.
End RegistryProps.

Lemma filter_Forall {A} (P : A -> Prop) (f : A -> bool) (l : list A) :
  Forall P l -> Forall P (filter f l).
Proof.
  rewrite !Forall_forall. intros H x Hin. apply filter_In in Hin.
  now apply H.
Qed.

(** In every reachable state each registry entry is filed under its own
    connection id and carries a display name of 1 to 30 characters without
    whitespace at either end. *)
Theorem registry_names_valid (s : state) :
  reachable s -> Forall user_ok (connected_users s).
Proof.
  induction 1 as [|s sid ev _ IH]; [constructor|].
  apply (handle_registry_prop (Forall user_ok) sid); [| |exact IH].
  - intros d. apply filter_Forall.
  - intros p now d Hd. apply dict_set_Forall; [|exact Hd].
    destruct (display_name_of_ok p) as [Hlen Hno].
    repeat split; simpl; try lia; apply Hno.
Qed.

Lemma registry_names_valid_witness :
  Forall user_ok (connected_users ringing_state).
Proof. exact (registry_names_valid ringing_state ringing_state_reachable). Defined.

(** No event of one connection changes the registry entry of another: for
    every state, every event handled for [sid] and every other connection id
    [k], the entry of [k] (or its absence) is the same afterwards. *)
Theorem registry_isolation (s : state) (sid k : string) (ev : event) :
  k <> sid ->
  dict_get k (connected_users (state_of (handle sid ev s))) =
  dict_get k (connected_users s).
Proof.
  intros Hk.
  apply (handle_registry_prop
           (fun d => dict_get k d = dict_get k (connected_users s)) sid).
  - intros d <-. now apply dict_get_del_other.
  - intros p now d <-. now apply dict_get_set_other.
  - reflexivity.
Qed.

Lemma registry_isolation_witness :
  dict_get "B" (connected_users (state_of (handle "A" Disconnect ringing_state)))
  = Some (mkUser "Bob" "B" "t1").
Proof.
  exact (registry_isolation ringing_state "A" "B" Disconnect
           ltac:(discriminate)).
Defined.

(** The handlers of [connect], [get_users], [accept_call], [offer],
    [answer], [ice_candidate] and [send_message] leave the whole state as it
    is, for every input and whether or not they fail inside. *)
Theorem read_only_handlers (s : state) (sid : string) (ev : event) :
  read_only ev = true -> state_of (handle sid ev s) = s.
Proof.
  intros H.
  destruct ev; try discriminate H; cbn [handle].
  - now apply (handle_connect_preserves (fun st => st = s)).
  - now apply (handle_get_users_preserves (fun st => st = s)).
  - now apply (handle_accept_call_preserves (fun st => st = s)).
  - now apply (handle_offer_preserves (fun st => st = s)).
  - now apply (handle_answer_preserves (fun st => st = s)).
  - now apply (handle_ice_candidate_preserves (fun st => st = s)).
  - now apply (handle_send_message_preserves (fun st => st = s)).
Qed.

Lemma read_only_handlers_witness :
  state_of (handle "C" (AcceptCall [("room_id", PList [])]) ringing_state)
  = ringing_state.
Proof.
  exact (read_only_handlers ringing_state "C" (AcceptCall [("room_id", PList [])])
           eq_refl).
Defined.

(** ** No exception leaves a handler *)




(** ** The count reported by the HTTP routes *)

Lemma dict_set_length {V} k (v : V) (d : dict V) :
  length (dict_set k v d) =
  if dict_mem k d then length d else S (length d).
Proof.
  rewrite <- (length_map fst (dict_set k v d)), <- (length_map fst d).
  fold (dict_keys (dict_set k v d)). fold (dict_keys d).
  destruct (dict_mem k d) eqn:E.
  - now rewrite dict_keys_set_present.
  - rewrite dict_keys_set_absent by exact E. rewrite length_app. simpl. lia.
Qed.

Lemma dict_del_length {V} k (v : V) (d : dict V) :
  NoDup (dict_keys d) -> dict_get k d = Some v ->
  length d = S (length (dict_del k d)).
Proof.
  unfold dict_del, dict_keys.
  induction d as [|[k' v'] r IH]; simpl; [discriminate|].
  intros Hnd. inversion Hnd as [|? ? Hnotin Hnd']; subst.
  destruct (String.eqb_spec k k') as [->|Hne]; simpl.
  - intros _. f_equal. symmetry. f_equal. 
    change (filter (fun kv => negb (String.eqb k' (fst kv))) r)
      with (dict_del k' r).
    apply dict_del_absent. apply dict_mem_false_In. exact Hnotin.
  - intros H. f_equal. auto.
Qed.

(** The two HTTP routes report the same number, the size of the registry.
    In a reachable state a successful [register] raises it by one for a
    connection that was not registered and leaves it as it is for one that
    was; a [disconnect] lowers it by one for a registered connection and
    leaves it for any other. *)
Theorem health_counts_registrations (s : state) (sid : string) :
  reachable s ->
  let n := Z.of_nat (length (connected_users s)) in
  (forall now, dict_get "connected_users" (index now s) =
               dict_get "users_online" (health s)) /\
  (forall now p data,
     py_get_default data "name" (PStr "Anonymous") = PStr p ->
     dict_get "users_online" (health (state_of (handle_register sid now data s)))
     = Some (OVal (PInt (if dict_mem sid (connected_users s)
                         then n else n + 1)))) /\
  dict_get "users_online" (health (state_of (handle_disconnect sid s)))
  = Some (OVal (PInt (if dict_mem sid (connected_users s) then n - 1 else n))).
Proof.
  intros Hreach n. subst n. destruct (reachable_wf s Hreach) as [Hu Hnd _].
  split; [reflexivity|]. split.
  - intros now p data H. rewrite (handle_register_eval sid now p data s H).
    unfold health, state_of. cbn [fst snd connected_users dict_get String.eqb
      Ascii.eqb Bool.eqb]. rewrite dict_set_length.
    destruct (dict_mem sid (connected_users s)); [reflexivity|].
    do 3 f_equal. lia.
  - unfold dict_mem.
    destruct (dict_get sid (connected_users s)) as [u|] eqn:Hsid.
    + destruct (handle_disconnect_spec sid u s Hnd Hsid) as [sio ->].
      unfold health, state_of. cbn [fst snd connected_users dict_get String.eqb
        Ascii.eqb Bool.eqb].
      rewrite (dict_del_length sid u (connected_users s) Hu Hsid).
      do 3 f_equal. lia.
    + rewrite handle_disconnect_absent
        by (unfold dict_mem; now rewrite Hsid).
      reflexivity.
Qed.

Lemma health_counts_registrations_witness :
  dict_get "users_online" (health ringing_state) = Some (OVal (PInt 3)) /\
  dict_get "users_online"
    (health (state_of (handle_disconnect "B" ringing_state)))
  = Some (OVal (PInt 2)).
Proof.
  split; [reflexivity|].
  exact (proj2 (proj2 (health_counts_registrations ringing_state "B"
                         ringing_state_reachable))).
Defined.

(** ** Rejecting and ending a call *)

Lemma py_in_unknown {V} (v : pyval) (d : dict V) (s : state) :
  (forall k, v = PStr k -> dict_mem k d = false) ->
  py_in v d s = (inr None, s, []) \/ exists e, py_in v d s = (inl e, s, []).
Proof.
  intros H. unfold py_in.
  destruct v as [| | |k| |];
    try (now left); try (right; eexists; reflexivity).
  rewrite (H k eq_refl). now left.
Qed.

Lemma reject_call_unknown rejecter (data : dict pyval) (s : state) :
  (forall k, py_get data "room_id" = PStr k ->
             dict_mem k (active_rooms s) = false) ->
  handle_reject_call rejecter data s = (inr tt, s, []).
Proof.
  intros H. unfold handle_reject_call.
  destruct (py_in_unknown (py_get data "room_id") (active_rooms s) s H)
    as [Hin|[e Hin]].
  - apply try_ok. run_bind. erewrite bind_eval by exact Hin. reflexivity.
  - erewrite try_raised; cycle 1.
    { run_bind. erewrite bind_raised by exact Hin. reflexivity. }
    reflexivity.
Qed.

Lemma end_call_unknown ender (data : dict pyval) (s : state) :
  (forall k, py_get data "room_id" = PStr k ->
             dict_mem k (active_rooms s) = false) ->
  handle_end_call ender data s = (inr tt, s, []).
Proof.
  intros H. unfold handle_end_call.
  destruct (py_in_unknown (py_get data "room_id") (active_rooms s) s H)
    as [Hin|[e Hin]].
  - apply try_ok. run_bind. erewrite bind_eval by exact Hin. reflexivity.
  - erewrite try_raised; cycle 1.
    { run_bind. erewrite bind_raised by exact Hin. reflexivity. }
    reflexivity.
Qed.


Lemma reject_call_unregistered rejecter room_id room_users other rest
    (data : dict pyval) (s : state) :
  py_get data "room_id" = PStr room_id ->
  dict_get room_id (active_rooms s) = Some room_users ->
  filter (fun u => negb (String.eqb u rejecter)) room_users = other :: rest ->
  dict_get rejecter (connected_users s) = None ->
  handle_reject_call rejecter data s = (inr tt, s, []).
Proof.
  intros Hdata Hroom Hother Hru. unfold handle_reject_call. rewrite Hdata.
  erewrite try_raised; cycle 1.
  { run_bind. unfold py_in, dict_mem. rewrite Hroom. run_bind.
    erewrite bind_eval; cycle 1.
    { run_bind. unfold subscript. rewrite Hroom. reflexivity. }
    cbv beta iota. rewrite Hother. run_bind.
    erewrite bind_raised; [reflexivity|].
    run_bind. unfold subscript. rewrite Hru. reflexivity. }
  reflexivity.
Qed.

Lemma end_call_found ender room_id room_users (data : dict pyval)
    (s : state) :
  py_get data "room_id" = PStr room_id ->
  dict_get room_id (active_rooms s) = Some room_users ->
  exists sio,
    handle_end_call ender data s =
    (inr tt,
     mkState (connected_users s) (dict_del room_id (active_rooms s)) sio,
     [Emit "call_ended"
        [("ender_name", ostr (name_or ender "Someone" (connected_users s)))]
        (ToRoom room_id)]).
Proof.
  intros Hdata Hroom.
  destruct (cleanup_room_spec room_id room_users s Hroom) as [sio Hc].
  exists sio. unfold handle_end_call. rewrite Hdata.
  apply try_ok. run_bind. unfold py_in, dict_mem. rewrite Hroom. run_bind.
  run_bind. run_bind. rewrite Hc. reflexivity.
Qed.



(** [reject_call] and [end_call] for a room identifier that is not in the
    table, or that is not a string at all, do nothing: no event, no change
    of state, no error reported to the sender. *)
Theorem reject_end_unknown_room_silent (s : state) (sid : string)
    (data : dict pyval) :
  (forall k, py_get data "room_id" = PStr k ->
             dict_mem k (active_rooms s) = false) ->
  handle_reject_call sid data s = (inr tt, s, []) /\
  handle_end_call sid data s = (inr tt, s, []).
Proof.
  intros H. split; [now apply reject_call_unknown | now apply end_call_unknown].
Qed.

Lemma reject_end_unknown_room_silent_witness :
  handle_reject_call "B" [("room_id", PStr "call_A_C")] ringing_state =
    (inr tt, ringing_state, []) /\
  handle_end_call "B" [("room_id", PList [PInt 1])] ringing_state =
    (inr tt, ringing_state, []).
Proof.
  split.
  - apply (reject_end_unknown_room_silent ringing_state "B"
             [("room_id", PStr "call_A_C")]).
    intros k [= <-]. reflexivity.
  - apply (reject_end_unknown_room_silent ringing_state "B"
             [("room_id", PList [PInt 1])]).
    intros k [=].
Defined.

(** [reject_call] by a connection that is not registered, for a room of the
    table in a reachable state: the lookup of the rejecter's name fails
    before anything is sent or cleaned up, so nobody is notified and the
    room stays in the table. *)
Theorem reject_by_unregistered_keeps_room (s : state)
    (rejecter room_id : string) (room_users : list string)
    (data : dict pyval) :
  reachable s ->
  py_get data "room_id" = PStr room_id ->
  dict_get room_id (active_rooms s) = Some room_users ->
  dict_get rejecter (connected_users s) = None ->
  handle_reject_call rejecter data s = (inr tt, s, []).
Proof.
  intros Hreach Hdata Hroom Hru.
  destruct (reachable_wf s Hreach) as [_ _ Hok].
  rewrite Forall_forall in Hok.
  destruct (room_ok_other rejecter _ (Hok _ (dict_get_In _ _ _ Hroom)))
    as [other [rest Hother]]. cbn [snd] in Hother.
  exact (reject_call_unregistered rejecter room_id room_users other rest data s
           Hdata Hroom Hother Hru).
Qed.

Lemma reject_by_unregistered_keeps_room_witness :
  handle_reject_call "Z" [("room_id", PStr "call_A_B")] ringing_state =
  (inr tt, ringing_state, []).
Proof.
  exact (reject_by_unregistered_keeps_room ringing_state "Z" "call_A_B"
           ["A"; "B"] [("room_id", PStr "call_A_B")]
           ringing_state_reachable eq_refl eq_refl eq_refl).
Defined.

(** [end_call] for a room of the table, by any connection (participant or
    not, registered or not): one [call_ended] goes to the room, naming the
    ender by the registered name or "Someone"; the room is removed, every
    other room and the registry stay as they are. *)
Theorem end_call_removes_room (s : state) (ender room_id : string)
    (room_users : list string) (data : dict pyval) :
  py_get data "room_id" = PStr room_id ->
  dict_get room_id (active_rooms s) = Some room_users ->
  let r := handle_end_call ender data s in
  result_of r = inr tt /\
  output_of r =
    [Emit "call_ended"
       [("ender_name",
         ostr (match dict_get ender (connected_users s) with
               | Some u => u_name u
               | None => "Someone"
               end))]
       (ToRoom room_id)] /\
  connected_users (state_of r) = connected_users s /\
  dict_mem room_id (active_rooms (state_of r)) = false /\
  (forall k, k <> room_id ->
     dict_get k (active_rooms (state_of r)) = dict_get k (active_rooms s)).
Proof.
  intros Hdata Hroom.
  destruct (end_call_found ender room_id room_users data s Hdata Hroom)
    as [sio Hr].
  cbv zeta. rewrite Hr. unfold result_of, state_of, output_of.
  cbn [fst snd connected_users active_rooms].
  split; [reflexivity|]. split; [reflexivity|]. split; [reflexivity|].
  split; [apply dict_mem_del_same|].
  intros k Hk. now apply dict_get_del_other.
Qed.

Lemma end_call_removes_room_witness :
  let r := handle_end_call "Z" [("room_id", PStr "call_A_B")] ringing_state in
  output_of r =
    [Emit "call_ended" [("ender_name", ostr "Someone")] (ToRoom "call_A_B")] /\
  dict_mem "call_A_B" (active_rooms (state_of r)) = false.
Proof.
  destruct (end_call_removes_room ringing_state "Z" "call_A_B" ["A"; "B"]
              [("room_id", PStr "call_A_B")] eq_refl eq_refl)
    as [_ [H1 [_ [H2 _]]]].
  split; [exact H1 | exact H2].
Defined.

(** Once a room has been ended, every further [end_call] or [reject_call]
    for its identifier, by anyone, is silent and changes nothing, and every
    [accept_call] is answered with "Call no longer exists". *)
Theorem ended_room_is_gone (s : state) (ender room_id : string)
    (room_users : list string) (data : dict pyval) :
  py_get data "room_id" = PStr room_id ->
  dict_get room_id (active_rooms s) = Some room_users ->
  let s' := state_of (handle_end_call ender data s) in
  forall (sid : string) (data' : dict pyval),
    py_get data' "room_id" = PStr room_id ->
    handle_end_call sid data' s' = (inr tt, s', []) /\
    handle_reject_call sid data' s' = (inr tt, s', []) /\
    handle_accept_call sid data' s' = (inr tt, s', [call_error_missing]).
Proof.
  intros Hdata Hroom s' sid data' Hdata'.
  assert (Hgone : dict_mem room_id (active_rooms s') = false).
  { unfold s'.
    destruct (end_call_found ender room_id room_users data s Hdata Hroom)
      as [sio ->].
    apply dict_mem_del_same. }
  assert (Hun : forall k, py_get data' "room_id" = PStr k ->
                          dict_mem k (active_rooms s') = false).
  { intros k Hk. rewrite Hdata' in Hk. now injection Hk as <-. }
  split; [now apply end_call_unknown|].
  split; [now apply reject_call_unknown|].
  now apply accept_call_missing with (room_id := room_id).
Qed.

Lemma ended_room_is_gone_witness :
  let s' :=
    state_of (handle_end_call "A" [("room_id", PStr "call_A_B")] ringing_state)
  in
  handle_end_call "B" [("room_id", PStr "call_A_B")] s' = (inr tt, s', []) /\
  handle_accept_call "B" [("room_id", PStr "call_A_B")] s' =
    (inr tt, s', [call_error_missing]).
Proof.
  destruct (ended_room_is_gone ringing_state "A" "call_A_B" ["A"; "B"]
              [("room_id", PStr "call_A_B")] eq_refl eq_refl
              "B" [("room_id", PStr "call_A_B")] eq_refl) as [H1 [_ H2]].
  split; [exact H1 | exact H2].
Defined.

(** ** Chat messages: what is dropped, what is broadcast *)

(** A chat message that is not a string, or that is empty after stripping
    (a missing [message] counts as empty), or that is longer than 1000
    characters after stripping, is dropped: nothing is emitted, whatever the
    target, and the state is unchanged. *)
Theorem send_message_drops_invalid (s : state) (sender : string)
    (data : dict pyval) :
  (forall text,
     py_get_default data "message" (PStr "") = PStr text ->
     strip text = "" \/ (1000 < String.length (strip text))%nat) ->
  handle_send_message sender data s = (inr tt, s, []).
Proof.
  intros H. unfold handle_send_message.
  destruct (py_get_default data "message" (PStr "")) as [| | |text| |] eqn:E.
  4: { apply try_ok. run_bind.
       destruct (H text eq_refl) as [->|Hlen]; [reflexivity|].
       apply Nat.ltb_lt in Hlen. rewrite Hlen, orb_true_r. reflexivity. }
  all: erewrite try_raised by (apply bind_raised; reflexivity); reflexivity.
Qed.

Lemma send_message_drops_invalid_witness :
  handle_send_message "A" [("target_sid", PStr "B"); ("message", PStr "  ")]
    ringing_state = (inr tt, ringing_state, []) /\
  handle_send_message "A" [("target_sid", PStr "B")] ringing_state =
    (inr tt, ringing_state, []) /\
  handle_send_message "A" [("message", PInt 7)] ringing_state =
    (inr tt, ringing_state, []).
Proof.
  split; [|split].
  - apply send_message_drops_invalid. intros text [= <-]. now left.
  - apply send_message_drops_invalid. intros text [= <-]. now left.
  - apply send_message_drops_invalid. intros text [=].
Defined.

Lemma send_message_private_witness :
  handle_send_message "Z" [("target_sid", PStr "B"); ("message", PStr " yo ")]
    ringing_state =
  (inr tt, ringing_state,
   [Emit "receive_message"
      [("sender_sid", ostr "Z"); ("sender_name", ostr "Anonymous");
       ("message", ostr "yo"); ("private", obool true)] (ToRoom "B");
    Emit "receive_message"
      [("sender_sid", ostr "Z"); ("sender_name", ostr "Anonymous (to Bob)");
       ("message", ostr "yo"); ("private", obool true)] (ToRoom "Z")]).
Proof.
  exact (send_message_private "Z" "B" (mkUser "Bob" "B" "t1") " yo "
           [("target_sid", PStr "B"); ("message", PStr " yo ")] ringing_state
           eq_refl ltac:(discriminate) eq_refl eq_refl ltac:(discriminate)
           ltac:(simpl; lia)).
Defined.

(** A valid chat message whose target is missing or falsy (null, the empty
    string, zero, false, an empty list) is broadcast to everybody as a public
    message, under the sender's registered name or "Anonymous". *)
Theorem send_message_without_target_broadcasts (s : state)
    (sender text : string) (data : dict pyval) :
  py_truthy (py_get data "target_sid") = false ->
  dict_get "message" data = Some (PStr text) ->
  strip text <> "" -> (String.length (strip text) <= 1000)%nat ->
  handle_send_message sender data s =
  (inr tt, s,
   [Emit "receive_message"
      [("sender_sid", ostr sender);
       ("sender_name",
        ostr (match dict_get sender (connected_users s) with
              | Some u => u_name u
              | None => "Anonymous"
              end));
       ("message", ostr (strip text)); ("private", obool false)]
      (Broadcast true)]).
Proof.
  intros Hfalsy Hmsg Hnonempty Hlen.
  unfold handle_send_message, py_get_default. rewrite Hmsg.
  apply try_ok. run_bind.
  apply String.eqb_neq in Hnonempty. rewrite Hnonempty.
  apply Nat.ltb_ge in Hlen. rewrite Hlen. cbn [orb].
  run_bind. unfold truthy_and_in. rewrite Hfalsy. run_bind. reflexivity.
Qed.

Lemma send_message_without_target_broadcasts_witness :
  handle_send_message "A" [("target_sid", PStr ""); ("message", PStr "hi all")]
    ringing_state =
  (inr tt, ringing_state,
   [Emit "receive_message"
      [("sender_sid", ostr "A"); ("sender_name", ostr "Alice");
       ("message", ostr "hi all"); ("private", obool false)]
      (Broadcast true)]).
Proof.
  exact (send_message_without_target_broadcasts ringing_state "A" "hi all"
           [("target_sid", PStr ""); ("message", PStr "hi all")]
           eq_refl eq_refl ltac:(discriminate) ltac:(simpl; lia)).
Defined.

(** ** Disconnecting clears every room of the connection *)

Lemma In_dict_del_all {V} (ks : list string) (d : dict V) kv :
  In kv (dict_del_all ks d) -> In kv d /\ list_mem (fst kv) ks = false.
Proof.
  unfold dict_del_all, list_mem. revert d.
  induction ks as [|k r IH]; intros d; simpl; [auto|].
  intros H. apply IH in H. destruct H as [Hin Hr].
  unfold dict_del in Hin. apply filter_In in Hin. destruct Hin as [Hin Hk].
  split; [exact Hin|]. rewrite Hr, orb_false_r.
  rewrite String.eqb_sym. now apply negb_true_iff.
Qed.

(** After the disconnect of a registered connection, in a reachable state,
    no room of the table contains the connection any more, and every room
    that did not contain it is still there with the same participants. *)
Theorem disconnect_clears_rooms (s : state) (sid : string) :
  reachable s ->
  dict_mem sid (connected_users s) = true ->
  let s' := state_of (handle_disconnect sid s) in
  rooms_of sid s' = [] /\
  (forall k users,
     dict_get k (active_rooms s) = Some users ->
     list_mem sid users = false ->
     dict_get k (active_rooms s') = Some users) /\
  (forall k users,
     dict_get k (active_rooms s') = Some users ->
     dict_get k (active_rooms s) = Some users).
Proof.
  intros Hreach Hreg s'.
  destruct (reachable_wf s Hreach) as [_ Hnd _].
  unfold dict_mem in Hreg.
  destruct (dict_get sid (connected_users s)) as [u|] eqn:Hu;
    [clear Hreg | discriminate].
  destruct (handle_disconnect_spec sid u s Hnd Hu) as [sio Hr].
  unfold s'. rewrite Hr. unfold state_of. cbn [fst snd].
  unfold rooms_of at 1. cbn [active_rooms].
  split; [|split].
  - rewrite filter_none; [reflexivity|].
    intros kv Hin. apply In_dict_del_all in Hin. destruct Hin as [Hin Hk].
    destruct (list_mem sid (snd kv)) eqn:E; [|reflexivity].
    assert (Hin' : In (fst kv) (rooms_of sid s)).
    { unfold rooms_of. apply in_map. apply filter_In. auto. }
    apply list_mem_In in Hin'. congruence.
  - intros k users Hk Hno. rewrite dict_get_del_all.
    destruct (list_mem k (rooms_of sid s)) eqn:E; [|exact Hk].
    apply list_mem_In in E. unfold rooms_of in E.
    apply in_map_iff in E. destruct E as [[k' us] [Hfst Hin]].
    simpl in Hfst. subst k'. apply filter_In in Hin.
    destruct Hin as [Hin Hhas]. cbn [snd] in Hhas.
    rewrite (In_dict_get k us (active_rooms s) Hnd Hin) in Hk.
    injection Hk as ->. congruence.
  - intros k users. rewrite dict_get_del_all.
    destruct (list_mem k (rooms_of sid s)); [discriminate | auto].
Qed.

Lemma disconnect_clears_rooms_witness :
  let s' := state_of (handle_disconnect "A" ringing_state) in
  rooms_of "A" ringing_state = ["call_A_B"] /\ rooms_of "A" s' = [].
Proof.
  split; [reflexivity|].
  exact (proj1 (disconnect_clears_rooms ringing_state "A"
                  ringing_state_reachable eq_refl)).
Defined.

(** ** Round trips *)

Lemma dict_del_set_absent {V} k (v : V) (d : dict V) :
  dict_mem k d = false -> dict_del k (dict_set k v d) = d.
Proof.
  unfold dict_mem, dict_del.
  induction d as [|[k' v'] r IH]; simpl.
  - intros _. now rewrite String.eqb_refl.
  - destruct (String.eqb_spec k k') as [->|Hne]; [discriminate|].
    intros H. simpl. destruct (String.eqb_spec k k'); [congruence|].
    simpl. f_equal. auto.
Qed.

Lemma cleanup_user_rooms_none sid (s : state) :
  rooms_of sid s = [] -> cleanup_user_rooms sid s = (inr tt, s, []).
Proof.
  unfold rooms_of, cleanup_user_rooms. intros H.
  erewrite bind_eval by reflexivity. cbv beta iota zeta. now rewrite H.
Qed.

(** Registering and then disconnecting a connection that was not registered
    and is in no room gives back the state exactly as it was, whatever the
    registration payload (also when the registration itself fails). *)
Theorem register_then_disconnect_restores (s : state) (sid now : string)
    (data : dict pyval) :
  dict_mem sid (connected_users s) = false ->
  rooms_of sid s = [] ->
  state_of (handle_disconnect sid (state_of (handle_register sid now data s)))
  = s.
Proof.
  intros Hfresh Hrooms.
  destruct (py_get_default data "name" (PStr "Anonymous")) as [| | |p| |] eqn:E.
  4: { rewrite (handle_register_eval sid now p data s E).
       unfold state_of at 2. cbn [fst snd].
       unfold handle_disconnect.
       erewrite state_of_bind by reflexivity. cbv beta.
       cbn [connected_users]. unfold dict_mem. rewrite dict_get_set_same.
       erewrite state_of_bind; cycle 1.
       { run_bind. unfold subscript. cbn [connected_users].
         rewrite dict_get_set_same. reflexivity. }
       erewrite state_of_bind by reflexivity.
       erewrite state_of_bind by reflexivity.
       erewrite state_of_bind by reflexivity.
       unfold set_connected_users, modify. cbv beta iota.
       cbn [fst snd connected_users active_rooms sio_rooms].
       rewrite dict_del_set_absent by exact Hfresh.
       rewrite cleanup_user_rooms_none by exact Hrooms.
       now destruct s. }
  all: erewrite handle_register_eval_bad by (try exact E; discriminate);
    unfold state_of at 2; cbn [fst snd];
    now rewrite handle_disconnect_absent.
Qed.

Lemma register_then_disconnect_restores_witness :
  state_of (handle_disconnect "D"
              (state_of (handle_register "D" "t3" [("name", PStr "Dora")]
                           ringing_state)))
  = ringing_state.
Proof.
  exact (register_then_disconnect_restores ringing_state "D" "t3"
           [("name", PStr "Dora")] eq_refl eq_refl).
Defined.

(** A call followed by [end_call] for its room, by anyone, gives back the
    registry and the session table as they were, when the two connections
    had no room before. *)
Theorem call_then_end_restores_tables (s : state) (caller target ender : string)
    (cu tu : user_info) (data data' : dict pyval) :
  py_get data "target_sid" = PStr target ->
  dict_get target (connected_users s) = Some tu ->
  dict_get caller (connected_users s) = Some cu ->
  caller <> target ->
  dict_mem (room_id_of caller target) (active_rooms s) = false ->
  py_get data' "room_id" = PStr (room_id_of caller target) ->
  let s1 := state_of (handle_call_user caller data s) in
  let s2 := state_of (handle_end_call ender data' s1) in
  connected_users s2 = connected_users s /\ active_rooms s2 = active_rooms s.
Proof.
  intros Hdata Ht Hc Hne Hfresh Hdata' s1 s2.
  destruct (handle_call_user_spec caller target cu tu data s Hdata Ht Hc Hne)
    as [_ [Husers [Hrooms _]]].
  fold s1 in Husers, Hrooms.
  assert (Hroom : dict_get (room_id_of caller target) (active_rooms s1)
                  = Some [caller; target])
    by (rewrite Hrooms; apply dict_get_set_same).
  destruct (end_call_found ender _ _ data' s1 Hdata' Hroom) as [sio Hr].
  unfold s2. rewrite Hr. unfold state_of at 1 2. cbn [fst snd].
  cbn [connected_users active_rooms].
  split; [exact Husers|]. rewrite Hrooms. now apply dict_del_set_absent.
Qed.

Lemma call_then_end_restores_tables_witness :
  let s1 := state_of (handle_call_user "B" [("target_sid", PStr "C")]
                        ringing_state) in
  let s2 := state_of (handle_end_call "C" [("room_id", PStr "call_B_C")] s1) in
  active_rooms s1 = [("call_A_B", ["A"; "B"]); ("call_B_C", ["B"; "C"])] /\
  connected_users s2 = connected_users ringing_state /\
  active_rooms s2 = active_rooms ringing_state.
Proof.
  split; [reflexivity|].
  exact (call_then_end_restores_tables ringing_state "B" "C" "C"
           (mkUser "Bob" "B" "t1") (mkUser "Carol" "C" "t2")
           [("target_sid", PStr "C")] [("room_id", PStr "call_B_C")]
           eq_refl eq_refl eq_refl ltac:(discriminate) eq_refl eq_refl).
Defined.

(** ** The guards of a call *)

(** The two guards of [call_user], in their order.  A target that is not the
    id of a registered connection (missing, null, a number, an unknown
    string; also the caller's own id when the caller is not registered) is
    answered with "User is offline"; the caller's own id, when registered,
    with "Cannot call yourself"; a list or an object as target with the text
    of the [TypeError] it causes.  In all three cases the caller alone is
    notified and the state is unchanged. *)
Theorem call_user_guard_messages (s : state) (caller : string)
    (data : dict pyval) :
  let target := py_get data "target_sid" in
  let answer err :=
    (inr tt, s, [Emit "call_error" [("error", err)] ToSelf])
    : (exn + unit) * state * list emission in
  ((forall t, target = PStr t -> dict_mem t (connected_users s) = false) ->
   (forall l, target <> PList l) -> (forall d, target <> PDict d) ->
   handle_call_user caller data s = answer (ostr "User is offline")) /\
  (target = PStr caller -> dict_mem caller (connected_users s) = true ->
   handle_call_user caller data s = answer (ostr "Cannot call yourself")) /\
  ((exists l, target = PList l) \/ (exists d, target = PDict d) ->
   handle_call_user caller data s = answer (OErr (TypeError target))).
Proof.
  cbv zeta. unfold handle_call_user. split; [|split].
  - intros Hun Hl Hd.
    destruct (py_get data "target_sid") as [| | |t|l|d].
    1-3: apply try_ok; run_bind; run_bind; reflexivity.
    + apply try_ok. run_bind. unfold py_in. rewrite (Hun t eq_refl).
      run_bind. reflexivity.
    + now destruct (Hl l).
    + now destruct (Hd d).
  - intros -> Hmem. apply try_ok. run_bind. unfold py_in. rewrite Hmem.
    run_bind. rewrite String.eqb_refl. reflexivity.
  - intros [[l ->]|[d ->]].
    + erewrite try_raised; cycle 1.
      { run_bind. erewrite bind_raised by reflexivity. reflexivity. }
      reflexivity.
    + erewrite try_raised; cycle 1.
      { run_bind. erewrite bind_raised by reflexivity. reflexivity. }
      reflexivity.
Qed.

Lemma call_user_guard_messages_witness :
  handle_call_user "A" [("target_sid", PStr "Z")] ringing_state =
    (inr tt, ringing_state,
     [Emit "call_error" [("error", ostr "User is offline")] ToSelf]) /\
  handle_call_user "A" [("target_sid", PStr "A")] ringing_state =
    (inr tt, ringing_state,
     [Emit "call_error" [("error", ostr "Cannot call yourself")] ToSelf]) /\
  handle_call_user "Z" [("target_sid", PStr "Z")] ringing_state =
    (inr tt, ringing_state,
     [Emit "call_error" [("error", ostr "User is offline")] ToSelf]).
Proof.
  split; [|split].
  - apply (proj1 (call_user_guard_messages ringing_state "A"
                    [("target_sid", PStr "Z")])).
    + intros t [= <-]. reflexivity.
    + intros l; discriminate.
    + intros d; discriminate.
  - apply (proj1 (proj2 (call_user_guard_messages ringing_state "A"
                           [("target_sid", PStr "A")])));
      reflexivity.
  - apply (proj1 (call_user_guard_messages ringing_state "Z"
                    [("target_sid", PStr "Z")])).
    + intros t [= <-]. reflexivity.
    + intros l; discriminate.
    + intros d; discriminate.
Defined.

(** ** The tables of a reachable state *)

(** In every reachable state no connection id is registered twice, no room
    identifier occurs twice, and every room holds exactly two distinct
    connection ids, the caller and the target of the call that made it, under
    the identifier derived from the two. *)
Theorem tables_well_formed (s : state) :
  reachable s ->
  NoDup (dict_keys (connected_users s)) /\
  NoDup (dict_keys (active_rooms s)) /\
  (forall k users,
     dict_get k (active_rooms s) = Some users ->
     exists c t, users = [c; t] /\ c <> t /\ k = room_id_of c t).
Proof.
  intros Hreach. destruct (reachable_wf s Hreach) as [Hu Hr Hok].
  split; [exact Hu|]. split; [exact Hr|].
  intros k users Hk. rewrite Forall_forall in Hok.
  exact (Hok _ (dict_get_In _ _ _ Hk)).
Qed.

Lemma tables_well_formed_witness :
  NoDup (dict_keys (connected_users ringing_state)) /\
  NoDup (dict_keys (active_rooms ringing_state)) /\
  (forall k users,
     dict_get k (active_rooms ringing_state) = Some users ->
     exists c t, users = [c; t] /\ c <> t /\ k = room_id_of c t).
Proof. exact (tables_well_formed ringing_state ringing_state_reachable). Defined.

(** ** Who is on the user list *)

(** After a successful [register] of [sid], the answer to [get_users], for
    any requester, goes to the requester alone, does not change the state,
    and lists [sid] with the name that was kept. *)
Theorem registered_is_listed (s : state) (sid now p requester : string)
    (data : dict pyval) :
  py_get_default data "name" (PStr "Anonymous") = PStr p ->
  requester <> "" ->
  let s1 := state_of (handle_register sid now data s) in
  exists l,
    handle_get_users requester s1 =
      (inr tt, s1,
       [Emit "user_list" [("users", OVal (PList l))] (ToRoom requester)]) /\
    In (PDict [("name", PStr (display_name_of p)); ("sid", PStr sid)]) l /\
    length l = length (connected_users s1).
Proof.
  intros H Hreq s1. apply String.eqb_neq in Hreq.
  eexists. split; [|split].
  - unfold handle_get_users, broadcast_user_list.
    erewrite bind_eval by reflexivity. cbv beta iota zeta.
    rewrite Hreq. reflexivity.
  - unfold s1. rewrite (handle_register_eval sid now p data s H).
    unfold state_of. cbn [fst snd connected_users].
    apply in_map_iff.
    exists (sid, mkUser (display_name_of p) sid now). split; [reflexivity|].
    apply dict_get_In, dict_get_set_same.
  - apply length_map.
Qed.

Lemma registered_is_listed_witness :
  exists l,
    handle_get_users "B"
      (state_of (handle_register "D" "t3" [("name", PStr "Dora ")]
                   ringing_state)) =
      (inr tt,
       state_of (handle_register "D" "t3" [("name", PStr "Dora ")]
                   ringing_state),
       [Emit "user_list" [("users", OVal (PList l))] (ToRoom "B")]) /\
    In (PDict [("name", PStr "Dora"); ("sid", PStr "D")]) l.
Proof.
  destruct (registered_is_listed ringing_state "D" "t3" "Dora " "B"
              [("name", PStr "Dora ")] eq_refl ltac:(discriminate))
    as [l [H1 [H2 _]]].
  exists l. split; [exact H1 | exact H2].
Defined.

(** ** What a disconnect announces *)

(** The disconnect of a registered connection, in a reachable state, removes
    its registry entry and emits, in this order: [user_left] with its name to
    everybody else, the user list of the remaining registry to everybody,
    and then nothing but [call_ended] events addressed to connections other
    than the one that left. *)
Theorem disconnect_announces (s : state) (sid : string) (u : user_info) :
  reachable s ->
  dict_get sid (connected_users s) = Some u ->
  let r := handle_disconnect sid s in
  connected_users (state_of r) = dict_del sid (connected_users s) /\
  exists rest,
    output_of r =
      Emit "user_left" [("name", ostr (u_name u)); ("sid", ostr sid)]
        (Broadcast false)
      :: Emit "user_list" (user_list_payload (dict_del sid (connected_users s)))
           (Broadcast true)
      :: rest /\
    Forall (fun e =>
              ev_name e = "call_ended" /\
              exists other, ev_dest e = ToRoom other /\ other <> sid) rest.
Proof.
  intros Hreach Hu. destruct (reachable_wf s Hreach) as [_ Hnd _].
  destruct (handle_disconnect_spec sid u s Hnd Hu) as [sio Hr].
  cbv zeta. rewrite Hr. unfold state_of, output_of.
  cbn [fst snd connected_users app].
  split; [reflexivity|]. eexists. split; [reflexivity|].
  apply Forall_forall. intros e He.
  apply in_flat_map in He. destruct He as [kv [_ He]].
  unfold disconnect_notices in He. apply in_map_iff in He.
  destruct He as [other [<- Hin]]. apply filter_In in Hin.
  destruct Hin as [_ Hne]. split; [reflexivity|].
  exists other. split; [reflexivity|].
  apply negb_true_iff in Hne. now apply String.eqb_neq.
Qed.

Lemma disconnect_announces_witness :
  exists rest,
    output_of (handle_disconnect "B" ringing_state) =
      Emit "user_left" [("name", ostr "Bob"); ("sid", ostr "B")]
        (Broadcast false)
      :: Emit "user_list"
           (user_list_payload (dict_del "B" (connected_users ringing_state)))
           (Broadcast true)
      :: rest.
Proof.
  destruct (disconnect_announces ringing_state "B" (mkUser "Bob" "B" "t1")
              ringing_state_reachable eq_refl) as [_ [rest [H _]]].
  exists rest. exact H.
Defined.
